(** * The priority engine of the Museum Solo AI system

    A shallow embedding of [PriorityService] (the urgency scorer and the
    daily schedule planner) and the properties its specification states.

    Numbers are JavaScript numbers, that is IEEE 754 binary64 values: they
    are modelled by Rocq's primitive floats, whose operations round exactly
    as the host runtime does.  The wall clock and the runtime's date parser
    are inputs of the model: every [new Date()] of the source is one reading
    of the clock, threaded through the calls in the order the source makes
    them. *)

From Stdlib Require Import ZArith List Bool Ascii Floats Sorted Lia.
From stdpp Require Import gmap strings list.

Set Default Proof Using "Type".

(* Decimal literals such as 0.40 denote the nearest binary64 value, as in
   the source. *)
#[local] Set Warnings "-inexact-float".

(** ** JavaScript numbers *)

Module JS.

(** [ToBoolean] on a number: [NaN], [+0] and [-0] are falsy. *)
Definition truthy (x : float) : bool :=
  negb (PrimFloat.is_nan x || (x =? 0)%float).

(** [x || 0] for an optional number ([undefined] is falsy). *)
Definition orZero (x : option float) : float :=
  match x with
  | Some v => if truthy v then v else 0%float
  | None => 0%float
  end.

(** [Math.min(a, b)]: [NaN] if either is, and [-0] below [+0]. *)
Definition Math_min (a b : float) : float :=
  if PrimFloat.is_nan a || PrimFloat.is_nan b then PrimFloat.nan
  else if (a <? b)%float then a
  else if (b <? a)%float then b
  else if PrimFloat.get_sign a then a else b.

(** [a > b] and [a >= b], false as soon as one side is [NaN]. *)
Definition gt (a b : float) : bool := (b <? a)%float.
Definition ge (a b : float) : bool := (b <=? a)%float.

(** [s || d] for strings: the empty string is falsy. *)
Definition orString (s d : string) : string :=
  match s with EmptyString => d | _ => s end.

(** [xs.join(sep)]. *)
Definition join (sep : string) (xs : list string) : string :=
  String.concat sep xs.

(** [Array.prototype.sort(comparefn)].  The sort is stable and puts [a]
    after [b] exactly when [comparefn(a, b) > 0] (a [NaN] counts as [0]);
    for a consistent comparator the outcome does not depend on the
    runtime's algorithm, and is computed here by insertion. *)
Fixpoint insertBy {A} (comparefn : A -> A -> float) (a : A) (l : list A) : list A :=
  match l with
  | [] => [a]
  | b :: l' =>
      if gt (comparefn a b) 0 then b :: insertBy comparefn a l' else a :: l
  end.

Definition Array_sort {A} (comparefn : A -> A -> float) (l : list A) : list A :=
  foldr (insertBy comparefn) [] l.

(** [xs.slice(0, n)]. *)
Definition slice0 {A} (n : nat) (xs : list A) : list A := take n xs.

(** The values an accumulator such as [score] of [getImpactScore] and the
    operands of its [+=] take: a number; an object (a function is one); or
    the text that [+] makes once an object is an operand.  Such a text is
    the digits of the number so far followed by the source text of the
    function, or by [[object Object]]: it is never a numeric literal. *)
Inductive Value :=
| Num (x : float)
| Obj
| Text.

(** [a + b]: the sum of two numbers; with an object or a text on one side,
    the concatenation of both sides as strings. *)
Definition plus (a b : Value) : Value :=
  match a, b with
  | Num x, Num y => Num (x + y)%float
  | _, _ => Text
  end.

(** [v || d], for [v] the outcome of a property read ([None] is
    [undefined]): an object is truthy, and so is the text of one. *)
Definition orElse (v : option Value) (d : Value) : Value :=
  match v with
  | Some (Num x) => if truthy x then Num x else d
  | Some Obj => Obj
  | Some Text => Text
  | None => d
  end.

(** [ToNumber], which [Math.min] applies to its arguments: an object goes
    through its text, and a text that is no numeric literal gives [NaN]. *)
Definition toNumber (v : Value) : float :=
  match v with
  | Num x => x
  | Obj => PrimFloat.nan
  | Text => PrimFloat.nan
  end.

End JS.

(** ** Data model (the records of [types]) *)

(** [Task]: the fields the engine reads, and [id] and [title] to tell tasks
    apart.  [category] and [status] are the strings found at run time, so
    that values outside the declared unions can be discussed. *)
Record Task := mkTask {
  id : Z;
  title : string;
  category : string;
  estimated_hours : option float;
  due_date : option string;
  status : string;
}.

Record UrgencyFactors := mkFactors {
  deadline : float;
  impact : float;
  dependency : float;
  complexity : float;
}.

Record PriorityCalculationResult := mkResult {
  task : Task;
  urgencyScore : float;
  factors : UrgencyFactors;
  recommendation : string;
}.

Inductive EnergyLevel := high | medium | low.

Record ScheduleSlot := mkSlot {
  time : string;
  tasks : list Task;
  energy : EnergyLevel;
}.

Record DailySchedule := mkSchedule {
  date : string;
  morning : ScheduleSlot;
  afternoon : ScheduleSlot;
  evening : ScheduleSlot;
  totalEstimatedHours : float;
  aiRecommendation : string;
}.

(** ** Clock readings as explicit state *)

(** A computation that may read the clock: the state is the number of
    readings made so far. *)
Definition Clocked (A : Type) : Type := nat -> A * nat.

#[global] Instance clocked_ret : MRet Clocked := fun A (a : A) k => (a, k).

#[global] Instance clocked_bind : MBind Clocked :=
  fun A B (f : A -> Clocked B) (m : Clocked A) k => let (a, k') := m k in f a k'.

(** One [new Date().getTime()], given the clock's successive readings. *)
Definition readClock (clock : nat -> float) : Clocked float :=
  fun k => (clock k, S k).

(** [xs.map(f)] for a clock-reading [f], left to right. *)
Fixpoint mapClocked {A B} (f : A -> Clocked B) (xs : list A) : Clocked (list B) :=
  match xs with
  | [] => mret []
  | x :: xs' => y ← f x; ys ← mapClocked f xs'; mret (y :: ys)
  end.

(** The answer of [suggestTaskTime]. *)
Record TimeSuggestion := mkSuggestion {
  recommendedTime : string;
  reason : string;
}.

(** The answer of [getPriorityColor]. *)
Record PriorityColor := mkColor {
  bg : string;
  border : string;
  text : string;
}.

(** ** The urgency scorer *)

Module PriorityService.

Section Service.

(** The successive readings of the wall clock ([Date.prototype.getTime] of
    [new Date()], milliseconds since the epoch). *)
Variable clock : nat -> float.

(** [new Date(s).getTime()] for a date string: the runtime's parser, [NaN]
    for a string it does not read as a date. *)
Variable dateTime : string -> float.

Definition weight_deadline : float := 0.40%float.
Definition weight_impact : float := 0.30%float.
Definition weight_dependency : float := 0.20%float.
Definition weight_complexity : float := 0.10%float.

(** The units of [daysUntilDue]: [1000 * 60 * 60 * 24] milliseconds. *)
Definition msPerDay : float := (1000 * 60 * 60 * 24)%float.

(** The threshold cascade of [getDeadlineScore] on [daysUntilDue]. *)
Definition deadlineBand (daysUntilDue : float) : float :=
  if (daysUntilDue <? 0)%float then 10%float
  else if (daysUntilDue <=? 1)%float then 9%float
  else if (daysUntilDue <=? 3)%float then 8%float
  else if (daysUntilDue <=? 7)%float then 6%float
  else if (daysUntilDue <=? 14)%float then 4%float
  else if (daysUntilDue <=? 30)%float then 3%float
  else 2%float.

(** [getDeadlineScore]: [!dueDate] holds for [undefined] and for the empty
    string; otherwise the clock is read once. *)
Definition getDeadlineScore (dueDate : option string) : Clocked float :=
  match dueDate with
  | None => mret 2%float
  | Some EmptyString => mret 2%float
  | Some s =>
      now ← readClock clock;
      let due := dateTime s in
      let daysUntilDue := ((due - now) / msPerDay)%float in
      mret (deadlineBand daysUntilDue)
  end.

(** The own keys of the object literal [categoryImpact] of
    [getImpactScore], the six of [TaskCategory]. *)
Definition categoryImpact : gmap string float :=
  <["exhibition" := 5%float]> (<["education" := 4%float]>
  (<["collection" := 3%float]> (<["publication" := 3%float]>
  (<["research" := 2%float]> (<["admin" := 2%float]> ∅))))).

(** The names every object literal answers to besides its own keys: the
    members it inherits from [Object.prototype].  All are functions, but
    [__proto__], which reads as the prototype object itself. *)
Definition objectPrototypeNames : list string :=
  ["constructor"; "hasOwnProperty"; "isPrototypeOf"; "propertyIsEnumerable";
   "toLocaleString"; "toString"; "valueOf"; "__proto__";
   "__defineGetter__"; "__defineSetter__";
   "__lookupGetter__"; "__lookupSetter__"].

Definition inheritedName (c : string) : bool :=
  existsb (String.eqb c) objectPrototypeNames.

(** The property read [categoryImpact[c]]: the number under an own key, the
    inherited member under one of its names, [undefined] otherwise. *)
Definition categoryImpactAt (c : string) : option JS.Value :=
  match categoryImpact !! c with
  | Some v => Some (JS.Num v)
  | None => if inheritedName c then Some JS.Obj else None
  end.

(** [categoryImpact[c] || 2]. *)
Definition categoryBase (c : string) : JS.Value :=
  JS.orElse (categoryImpactAt c) (JS.Num 2).

(** [getImpactScore].  For a category that names an inherited member the
    first [+=] turns [score] into a text, the later one appends to it, and
    [Math.min] reads it as [NaN]. *)
Definition getImpactScore (t : Task) : float :=
  let score := JS.Num 0 in
  let score := JS.plus score (categoryBase (category t)) in
  let score :=
    match estimated_hours t with
    | Some h =>
        if JS.truthy h then
          if JS.gt h 8 then JS.plus score (JS.Num 3)
          else if JS.gt h 4 then JS.plus score (JS.Num 2)
          else JS.plus score (JS.Num 1)
        else score
    | None => score
    end in
  JS.Math_min (JS.toNumber score) 10.

Definition getDependencyScore (t : Task) : float :=
  if String.eqb (category t) "exhibition" || String.eqb (category t) "collection"
  then 5%float
  else 2%float.

Definition getComplexityScore (estimatedHours : option float) : float :=
  match estimatedHours with
  | None => 2%float
  | Some h =>
      if negb (JS.truthy h) then 2%float
      else if JS.gt h 16 then 8%float
      else if JS.gt h 8 then 6%float
      else if JS.gt h 4 then 4%float
      else if JS.gt h 2 then 3%float
      else 2%float
  end.

Definition getUrgencyFactors (t : Task) : Clocked UrgencyFactors :=
  d ← getDeadlineScore (due_date t);
  mret {| deadline := d;
          impact := getImpactScore t;
          dependency := getDependencyScore t;
          complexity := getComplexityScore (estimated_hours t) |}.

Definition generateRecommendation (f : UrgencyFactors) (score : float) : string :=
  let reasons :=
    (if JS.ge (deadline f) 8 then ["마감 임박"] else []) ++
    (if JS.ge (impact f) 7 then ["높은 영향도"] else []) ++
    (if JS.ge (dependency f) 5 then ["다른 작업 블로킹"] else []) ++
    (if JS.ge (complexity f) 6 then ["높은 복잡도"] else []) in
  if JS.ge score 8 then "🚨 긴급: " +:+ JS.join ", " reasons
  else if JS.ge score 6 then "⚠️ 중요: " +:+ JS.join ", " reasons
  else if JS.ge score 4 then
    "📌 보통: " +:+ JS.orString (JS.join ", " reasons) "일반 우선순위"
  else "📋 낮음: 여유있게 처리 가능".

(** The weighted sum of [calculateUrgencyScore], in the source's order. *)
Definition weightedSum (f : UrgencyFactors) : float :=
  (deadline f * weight_deadline +
   impact f * weight_impact +
   dependency f * weight_dependency +
   complexity f * weight_complexity)%float.

Definition calculateUrgencyScore (t : Task) : Clocked PriorityCalculationResult :=
  f ← getUrgencyFactors t;
  let score := weightedSum f in
  mret {| task := t;
          urgencyScore := score;
          factors := f;
          recommendation := generateRecommendation f score |}.

(** ** The schedule planner *)

(** The runtime's [new Date(ms).toISOString().split('T')[0]]. *)
Variable isoDate : float -> string.

Definition isEligible (t : Task) : bool :=
  String.eqb (status t) "pending" || String.eqb (status t) "in_progress".

(** The comparator given to [sort]: [b.urgencyScore - a.urgencyScore]. *)
Definition byUrgencyDesc (a b : PriorityCalculationResult) : float :=
  (urgencyScore b - urgencyScore a)%float.

Definition calculateTopPriorityTasks (ts : list Task)
  : Clocked (list PriorityCalculationResult) :=
  let pendingTasks := List.filter isEligible ts in
  scoredTasks ← mapClocked calculateUrgencyScore pendingTasks;
  let scoredTasks := JS.Array_sort byUrgencyDesc scoredTasks in
  mret (JS.slice0 3 scoredTasks).

Definition hoursOf (t : Task) : float := JS.orZero (estimated_hours t).

(** [ts.reduce((sum, t) => sum + (t.estimated_hours || 0), 0)]. *)
Definition sumHours (ts : list Task) : float :=
  foldl (fun sum t => (sum + hoursOf t)%float) 0%float ts.

Definition maxHoursPerSlot : float := 3%float.

(** The [while] loop of [balanceWorkload] on one slot's list, with the
    running total it maintains; [fuel] bounds the number of iterations. *)
Fixpoint trimLoop (fuel : nat) (totalHours : float) (ts : list Task)
  : float * list Task :=
  match fuel with
  | O => (totalHours, ts)
  | S fuel' =>
      if JS.gt totalHours maxHoursPerSlot && (1 <? length ts)%nat then
        let totalHours' :=
          match last ts with
          | Some lastTask => (totalHours - hoursOf lastTask)%float
          | None => totalHours
          end in
        trimLoop fuel' totalHours' (removelast ts)
      else (totalHours, ts)
  end.

(** One slot through [balanceWorkload]: every iteration removes a task,
    so the length of the list is fuel enough. *)
Definition balanceSlot (slot : ScheduleSlot) : ScheduleSlot :=
  let totalHours := sumHours (tasks slot) in
  {| time := time slot;
     tasks := snd (trimLoop (length (tasks slot)) totalHours (tasks slot));
     energy := energy slot |}.

Definition isCreative (t : Task) : bool :=
  String.eqb (category t) "exhibition" || String.eqb (category t) "research".

Definition isComplex (t : Task) : bool := JS.gt (hoursOf t) 2.

Definition push (slot : ScheduleSlot) (t : Task) : ScheduleSlot :=
  {| time := time slot; tasks := tasks slot ++ [t]; energy := energy slot |}.

(** The three slots under construction: morning, afternoon, evening. *)
Definition Slots : Type := ScheduleSlot * ScheduleSlot * ScheduleSlot.

(** The body of the [forEach] of [categorizeTasksByEnergy]. *)
Definition distribute (slots : Slots) (t : Task) : Slots :=
  let '(m, a, e) := slots in
  if isCreative t && isComplex t then (push m t, a, e)
  else if String.eqb (category t) "education" || String.eqb (category t) "publication"
  then (m, push a t, e)
  else (m, a, push e t).

Definition emptySlots : Slots :=
  ({| time := "09:00-12:00"; tasks := []; energy := high |},
   {| time := "13:00-17:00"; tasks := []; energy := medium |},
   {| time := "17:00-18:00"; tasks := []; energy := low |}).

Definition balanceWorkload (slots : Slots) : Slots :=
  let '(m, a, e) := slots in (balanceSlot m, balanceSlot a, balanceSlot e).

Definition categorizeTasksByEnergy (ts : list Task) : Slots :=
  balanceWorkload (foldl distribute emptySlots ts).

Definition calculateTotalHours (slots : Slots) : float :=
  let '(m, a, e) := slots in
  sumHours (tasks m ++ tasks a ++ tasks e).

Definition generateScheduleRecommendation (slots : Slots) (totalHours : float) : string :=
  let '(m, a, e) := slots in
  let recommendations :=
    (if JS.gt totalHours 8 then
       ["⚠️ 오늘 업무량이 많습니다. 일부 작업을 내일로 연기하는 것을 고려하세요."]
     else if (totalHours <? 4)%float then
       ["✅ 여유로운 하루입니다. 미뤄뒀던 연구나 학습에 시간을 투자하세요."]
     else []) ++
    (if (length (tasks m) =? 0)%nat then
       ["💡 아침 시간에 창의적인 작업을 배치하면 생산성이 높아집니다."]
     else []) ++
    (if (2 <? length (tasks e))%nat then
       ["📋 저녁에는 가벼운 작업 1-2개만 처리하고 휴식을 취하세요."]
     else []) in
  if (0 <? length recommendations)%nat
  then JS.join (String "010"%char EmptyString) recommendations
  else "👍 잘 균형잡힌 스케줄입니다. 집중해서 진행하세요!".

Definition generateDailySchedule (ts : list Task) : Clocked DailySchedule :=
  now ← readClock clock;
  let today := isoDate now in
  priorityTasks ← calculateTopPriorityTasks ts;
  let topTasks := map task (JS.slice0 10 priorityTasks) in
  let schedule := categorizeTasksByEnergy topTasks in
  let totalHours := calculateTotalHours schedule in
  let '(m, a, e) := schedule in
  mret {| date := today;
          morning := m;
          afternoon := a;
          evening := e;
          totalEstimatedHours := totalHours;
          aiRecommendation := generateScheduleRecommendation schedule totalHours |}.

(** The runtime's [getHours()] of a clock reading: the hour of the day in
    local time. *)
Variable getHours : float -> float.

Definition suggestTaskTime (t : Task) : Clocked TimeSuggestion :=
  now ← readClock clock;
  let hour := getHours now in
  let creative := isCreative t in
  let complex := isComplex t in
  if JS.ge hour 9 && (hour <? 12)%float && (creative || complex) then
    mret {| recommendedTime := "지금 바로";
            reason := "아침 고에너지 시간대 - 창의적/복잡한 작업에 최적" |}
  else if JS.ge hour 13 && (hour <? 17)%float then
    mret {| recommendedTime := "지금 바로";
            reason := "오후 시간대 - 중간 난이도 작업에 적합" |}
  else if JS.ge hour 17 && (hour <? 18)%float && negb creative && negb complex then
    mret {| recommendedTime := "지금 바로";
            reason := "저녁 시간대 - 단순 작업에 적합" |}
  else if creative || complex then
    mret {| recommendedTime := "내일 오전 9-12시";
            reason := "창의적/복잡한 작업은 아침 고에너지 시간대에 처리하세요" |}
  else
    mret {| recommendedTime := "오후 시간대";
            reason := "일반 작업은 오후에 처리 가능" |}.

End Service.

(** [getPriorityColor], the colours the interface shows for a score. *)
Definition getPriorityColor (score : float) : PriorityColor :=
  if JS.ge score 8 then
    {| bg := "rgba(239, 68, 68, 0.1)"; border := "#ef4444"; text := "#fca5a5" |}
  else if JS.ge score 6 then
    {| bg := "rgba(251, 146, 60, 0.1)"; border := "#fb923c"; text := "#fdba74" |}
  else if JS.ge score 4 then
    {| bg := "rgba(168, 85, 247, 0.1)"; border := "#a855f7"; text := "#c084fc" |}
  else
    {| bg := "rgba(148, 163, 184, 0.1)"; border := "#94a3b8"; text := "#cbd5e1" |}.

End PriorityService.

(** ** The priority cards of the dashboard *)

(** The badge [renderPriorityCards] computes for one result, from its
    [urgencyScore]. *)
Module Dashboard.

Definition urgencyClass (urgencyScore : float) : string :=
  if JS.ge urgencyScore 8 then "priority-urgent" else "".

Definition urgencyIcon (urgencyScore : float) : string :=
  if JS.ge urgencyScore 8 then "🚨"
  else if JS.ge urgencyScore 6 then "⚠️" else "📌".

Definition urgencyText (urgencyScore : float) : string :=
  if JS.ge urgencyScore 8 then "긴급"
  else if JS.ge urgencyScore 6 then "중요" else "보통".

End Dashboard.

Import PriorityService.

(** ** The rules as the specification words them *)

(** Days remaining until the due date, in fractional days, at the [k]-th
    reading of the clock; [None] when the task has no due date. *)
Definition daysRemaining (clock : nat -> float) (dateTime : string -> float)
    (dueDate : option string) (k : nat) : option float :=
  match dueDate with
  | None => None
  | Some EmptyString => None
  | Some s => Some ((dateTime s - clock k) / msPerDay)%float
  end.

(** The deadline rule: first matching line wins. *)
Definition deadlineRule (days : option float) : float :=
  match days with
  | None => 2%float
  | Some d =>
      if (d <? 0)%float then 10%float
      else if (d <=? 1)%float then 9%float
      else if (d <=? 3)%float then 8%float
      else if (d <=? 7)%float then 6%float
      else if (d <=? 14)%float then 4%float
      else if (d <=? 30)%float then 3%float
      else 2%float
  end.


(** The category base score, 2 for a category that is not listed. *)
Definition categoryBaseRule (c : string) : float :=
  if String.eqb c "exhibition" then 5%float
  else if String.eqb c "education" then 4%float
  else if String.eqb c "collection" then 3%float
  else if String.eqb c "publication" then 3%float
  else if String.eqb c "research" then 2%float
  else if String.eqb c "admin" then 2%float
  else 2%float.


(** The effort bonus of the source: hours that are [0] or [NaN] earn
    nothing, as absent hours do. *)
Definition effortBonus (hours : option float) : float :=
  match hours with
  | None => 0%float
  | Some h =>
      if JS.truthy h then
        if JS.gt h 8 then 3%float else if JS.gt h 4 then 2%float else 1%float
      else 0%float
  end.


Definition impactRule (t : Task) : float :=
  JS.Math_min (categoryBaseRule (category t) + effortBonus (estimated_hours t)) 10.

(** No eligible task of [ts] has for category the name of a member that
    objects inherit. *)
Definition ownCategories (ts : list Task) : Prop :=
  Forall (fun t => ~ In (category t) objectPrototypeNames)
         (List.filter isEligible ts).

(** The values each sub-score can take. *)
Definition deadlineValues : list float := [2; 3; 4; 6; 8; 9; 10]%float.
Definition impactValues : list float := [2; 3; 4; 5; 6; 7; 8]%float.
Definition dependencyValues : list float := [2; 5]%float.
Definition complexityValues : list float := [2; 3; 4; 6; 8]%float.

(** Every weighted sum the scorer can produce. *)
Definition scoreTable : list float :=
  flat_map (fun d =>
    flat_map (fun i =>
      flat_map (fun p =>
        map (fun c => weightedSum (mkFactors d i p c)) complexityValues)
        dependencyValues)
      impactValues)
    deadlineValues.



(** The check behind the sort: on the scores of the table, the sign of the
    comparator's difference [y - x] agrees with the order of [x] and [y]. *)
Definition comparatorAgreesOn (table : list float) : bool :=
  forallb (fun x => forallb (fun y =>
    if JS.gt (y - x) 0 then (x <=? y)%float else (y <=? x)%float) table) table.

(** [a] may stand before [b] in a list in descending order of urgency. *)
Definition notBelow (a b : PriorityCalculationResult) : Prop :=
  (urgencyScore b <=? urgencyScore a)%float = true.

(** Descending order of [urgencyScore]: every element is not below any
    later one. *)
Definition descending (rs : list PriorityCalculationResult) : Prop :=
  StronglySorted notBelow rs.

(** The score of [r] is one the scorer can produce. *)
Definition tabled (r : PriorityCalculationResult) : Prop :=
  In (urgencyScore r) scoreTable.

(** [r] is the scorer's result for [t] at some reading of the clock. *)
Definition scoredAs (clock : nat -> float) (dateTime : string -> float)
    (t : Task) (r : PriorityCalculationResult) : Prop :=
  exists j, r = fst (calculateUrgencyScore clock dateTime t j).

(** The slot the [forEach] of [categorizeTasksByEnergy] puts a task in. *)
Definition goesMorning (t : Task) : bool := isCreative t && isComplex t.

Definition goesAfternoon (t : Task) : bool :=
  negb (goesMorning t) &&
  (String.eqb (category t) "education" || String.eqb (category t) "publication").

Definition goesEvening (t : Task) : bool :=
  negb (goesMorning t) &&
  negb (String.eqb (category t) "education" || String.eqb (category t) "publication").

(** Every task of a schedule, slot after slot. *)
Definition scheduled (s : DailySchedule) : list Task :=
  tasks (morning s) ++ tasks (afternoon s) ++ tasks (evening s).

(** The running total of the balancing loop once the tasks [dropped] (in
    list order) have been popped off the tail, last one first. *)
Definition runningTotal (total : float) (dropped : list Task) : float :=
  foldr (fun t tot => (tot - hoursOf t)%float) total dropped.

(** The subtractions the loop performs when it pops [dropped] off the
    list [kept ++ dropped] are exact: each of them, the hours of a removed
    task [x] taken off the running total at that point, gives back the sum
    of the tasks before [x].  Nothing is asked of the tasks that stay. *)
Definition exactRemovals (kept dropped : list Task) : Prop :=
  forall l x l', dropped = l ++ x :: l' ->
    (runningTotal (sumHours (kept ++ dropped)) l' - hoursOf x)%float =
    sumHours (kept ++ l).

(** What balancing leaves of a slot whose list was [before]: a tail
    [dropped] is gone but not the whole list, and the slot holds at most one
    task or the running total is not above the cap; when the subtractions
    performed are exact, the summed hours of the slot are not above the cap
    unless the slot holds one task whose hours alone are. *)
Definition balancedFrom (before : list Task) (slot : ScheduleSlot) : Prop :=
  exists dropped,
    before = tasks slot ++ dropped /\
    (before <> [] -> tasks slot <> []) /\
    ((length (tasks slot) <= 1)%nat \/
     JS.gt (runningTotal (sumHours before) dropped) maxHoursPerSlot = false) /\
    (exactRemovals (tasks slot) dropped ->
     JS.gt (sumHours (tasks slot)) maxHoursPerSlot = false \/
     exists t, tasks slot = [t] /\ JS.gt (hoursOf t) maxHoursPerSlot = true).

(** The slots of a schedule are balanced from the distribution of [top]:
    the morning, afternoon and evening lists of the [forEach]. *)
Definition balancedSchedule (top : list Task) (s : DailySchedule) : Prop :=
  balancedFrom (List.filter goesMorning top) (morning s) /\
  balancedFrom (List.filter goesAfternoon top) (afternoon s) /\
  balancedFrom (List.filter goesEvening top) (evening s).

(** The candidates the daily schedule is meant to take: the tasks of the
    first ten results of the whole ranking of the eligible tasks. *)
Definition topTenCandidates (clock : nat -> float) (dateTime : string -> float)
    (ts : list Task) : Clocked (list Task) :=
  scored ← mapClocked (calculateUrgencyScore clock dateTime) (List.filter isEligible ts);
  mret (map task (take 10 (JS.Array_sort byUrgencyDesc scored))).

(** The tasks left in the three slots when [ts] are distributed and
    balanced. *)
Definition slotted (ts : list Task) : list Task :=
  let '(m, a, e) := categorizeTasksByEnergy ts in
  tasks m ++ tasks a ++ tasks e.

(** A task with its [estimated_hours] removed. *)
Definition withoutHours (t : Task) : Task :=
  {| id := id t; title := title t; category := category t;
     estimated_hours := None; due_date := due_date t; status := status t |}.

(** ** Example inputs *)

(** A clock that reads 2026-11-03T09:00:00Z at every reading. *)
Definition exampleClock : nat -> float := fun _ => 1793696400000%float.

(** The runtime's reading of the date strings the examples use; any other
    string is taken as unreadable. *)
Definition exampleDateTime (s : string) : float :=
  if String.eqb s "2026-11-03" then 1793664000000%float
  else if String.eqb s "2026-11-03T18:00:00Z" then 1793728800000%float
  else if String.eqb s "2026-11-01" then 1793491200000%float
  else if String.eqb s "2026-11-05" then 1793836800000%float
  else if String.eqb s "2026-11-08" then 1794096000000%float
  else if String.eqb s "2026-11-15" then 1794700800000%float
  else if String.eqb s "2026-11-30" then 1795996800000%float
  else if String.eqb s "2027-01-15" then 1799971200000%float
  else PrimFloat.nan.

Definition exampleIsoDate (now : float) : string := "2026-11-03".

(** The first worked example: an exhibition task of 2 hours due later on
    the day of the clock. *)
Definition exhibitionDueToday : Task :=
  {| id := 1; title := "opening"; category := "exhibition";
     estimated_hours := Some 2%float;
     due_date := Some "2026-11-03T18:00:00Z"; status := "pending" |}.

(** The same task with a date-only due date, which the runtime reads as
    midnight UTC of that day. *)
Definition exhibitionDateOnly : Task :=
  {| id := 1; title := "opening"; category := "exhibition";
     estimated_hours := Some 2%float;
     due_date := Some "2026-11-03"; status := "pending" |}.

(** The second worked example: an admin task with no due date and no hours. *)
Definition adminBare : Task :=
  {| id := 2; title := "filing"; category := "admin";
     estimated_hours := None; due_date := None; status := "pending" |}.



(** Twelve eligible tasks, none above a quarter of an hour. *)
Definition twelveTasks : list Task :=
  [ mkTask 7 "archive" "admin" None (Some "2027-01-15") "pending";
    mkTask 11 "reading" "research" None None "pending";
    mkTask 4 "catalogue" "publication" (Some 0.25%float) (Some "2026-11-08") "pending";
    mkTask 12 "newsletter" "publication" None None "in_progress";
    mkTask 1 "opening" "exhibition" (Some 0.25%float) (Some "2026-11-01") "pending";
    mkTask 9 "workshop" "education" None None "pending";
    mkTask 5 "survey" "research" (Some 0.25%float) (Some "2026-11-15") "in_progress";
    mkTask 2 "school visit" "education" (Some 0.25%float) (Some "2026-11-03T18:00:00Z") "pending";
    mkTask 10 "storage" "collection" None None "pending";
    mkTask 6 "invoices" "admin" (Some 0.25%float) (Some "2026-11-30") "pending";
    mkTask 3 "condition report" "collection" (Some 0.25%float) (Some "2026-11-05") "in_progress";
    mkTask 8 "labels" "exhibition" (Some 0.25%float) None "pending" ].

(** Three admin tasks of about 2, 1 and 1.5 hours; the first is one unit in
    the last place above 2. *)
Definition overCapTasks : list Task :=
  [ mkTask 21 "inventory" "admin" (Some 2.0000000000000004%float) None "pending";
    mkTask 22 "mail" "admin" (Some 1%float) None "pending";
    mkTask 23 "minutes" "admin" (Some 1.5%float) None "pending" ].

(** Three admin tasks of 0.1, 0.9 and 2.5 hours, the first overdue and the
    second due in two days, so that they are ranked in this order. *)
Definition decimalHoursTasks : list Task :=
  [ mkTask 31 "stamps" "admin" (Some 0.1%float) (Some "2026-11-01") "pending";
    mkTask 32 "mail" "admin" (Some 0.9%float) (Some "2026-11-05") "pending";
    mkTask 33 "minutes" "admin" (Some 2.5%float) None "pending" ].

(** An exhibition task whose hours are present and equal to 0. *)
Definition exhibitionZeroHours : Task :=
  {| id := 5; title := "wall text"; category := "exhibition";
     estimated_hours := Some 0%float; due_date := Some "2026-11-05";
     status := "pending" |}.

Definition twelveSchedule : DailySchedule :=
  fst (generateDailySchedule exampleClock exampleDateTime exampleIsoDate twelveTasks 0).

Definition overCapSchedule : DailySchedule :=
  fst (generateDailySchedule exampleClock exampleDateTime exampleIsoDate overCapTasks 0).

Definition decimalHoursSchedule : DailySchedule :=
  fst (generateDailySchedule exampleClock exampleDateTime exampleIsoDate decimalHoursTasks 0).

(** An exhibition task of 20 hours whose due date is two days past. *)
Definition overdueBigExhibition : Task :=
  {| id := 41; title := "loan agreements"; category := "exhibition";
     estimated_hours := Some 20%float; due_date := Some "2026-11-01";
     status := "in_progress" |}.

(** An education task of 1 hour due in twelve days. *)
Definition educationLater : Task :=
  {| id := 42; title := "teacher pack"; category := "education";
     estimated_hours := Some 1%float; due_date := Some "2026-11-15";
     status := "pending" |}.

(** Tasks that are all finished or set aside. *)
Definition finishedTasks : list Task :=
  [ mkTask 51 "press release" "publication" (Some 2%float) (Some "2026-11-01") "completed";
    mkTask 52 "loan return" "collection" (Some 4%float) None "cancelled";
    mkTask 53 "floor plan" "exhibition" None (Some "2026-11-05") "paused" ].

(** Two admin tasks of 3 and 10 hours. *)
Definition adminThreeHours : Task :=
  {| id := 61; title := "accounts"; category := "admin";
     estimated_hours := Some 3%float; due_date := None; status := "pending" |}.

Definition adminTenHours : Task :=
  {| id := 62; title := "audit"; category := "admin";
     estimated_hours := Some 10%float; due_date := None; status := "pending" |}.

(** A task whose category is the name of a member that objects inherit. *)
Definition inheritedCategory : Task :=
  {| id := 71; title := "misfiled"; category := "toString";
     estimated_hours := Some 5%float; due_date := None; status := "pending" |}.




(** An exhibition task with neither hours nor due date. *)
Definition exhibitionBare : Task :=
  {| id := 72; title := "plinths"; category := "exhibition";
     estimated_hours := None; due_date := None; status := "pending" |}.


(** Four eligible tasks of listed categories. *)
Definition fourListedTasks : list Task :=
  [adminBare; educationLater; overdueBigExhibition; exhibitionBare].

(** ** Definitions for the further properties *)

(** A check of [P] over every combination of sub-scores the scorer can
    produce. *)
Definition forallFactors (P : float -> float -> float -> float -> bool) : bool :=
  forallb (fun d => forallb (fun i => forallb (fun p => forallb (fun c =>
    P d i p c) complexityValues) dependencyValues) impactValues) deadlineValues.

(** The tiers of [generateRecommendation], [getPriorityColor] and the
    dashboard badge. *)
Inductive Tier := Urgent | Important | Normal | Low.

Definition tierOf (score : float) : Tier :=
  if JS.ge score 8 then Urgent
  else if JS.ge score 6 then Important
  else if JS.ge score 4 then Normal
  else Low.

(** The reasons [generateRecommendation] collects from the factors. *)
Definition reasonTags (f : UrgencyFactors) : list string :=
  (if JS.ge (deadline f) 8 then ["마감 임박"] else []) ++
  (if JS.ge (impact f) 7 then ["높은 영향도"] else []) ++
  (if JS.ge (dependency f) 5 then ["다른 작업 블로킹"] else []) ++
  (if JS.ge (complexity f) 6 then ["높은 복잡도"] else []).

(** Some reason fires for the sub-scores [d], [i], [p], [c]. *)
Definition someReason (d i p c : float) : bool :=
  JS.ge d 8 || JS.ge i 7 || JS.ge p 5 || JS.ge c 6.

(** The score of [r] compares equal to [s]. *)
Definition hasScore (s : float) (r : PriorityCalculationResult) : bool :=
  (urgencyScore r =? s)%float.

(** On the scores of the table the comparator is positive only for a
    strictly greater second score. *)
Definition comparatorStrictOn (table : list float) : bool :=
  forallb (fun x => forallb (fun y =>
    implb (JS.gt (y - x) 0) (negb (y <=? x)%float)) table) table.

(** ** Proof steps *)

(** Membership in a list of literals. *)
Ltac in_list := solve [simpl; repeat first [left; reflexivity | right]].

(** Running a clock-reading computation. *)
Ltac run_clocked :=
  unfold mbind, clocked_bind, mret, clocked_ret, readClock in *; simpl in *.

(** ** Facts about binary64 arithmetic *)

Section FloatFacts.

Lemma SFcompare_swap (x y : spec_float) (c : comparison) :
  SFcompare x y = Some c -> SFcompare y x = Some (CompOpp c).
Proof.
  destruct x as [sx|sx| |sx mx ex], y as [sy|sy| |sy my ey]; simpl;
    try discriminate; intros [= <-]; f_equal;
    try (destruct sx; reflexivity); try (destruct sy; reflexivity);
    try (destruct sx, sy; reflexivity).
  change (Pos.compare_cont Eq my mx) with (Pos.compare my mx).
  change (Pos.compare_cont Eq mx my) with (Pos.compare mx my).
  rewrite (Z.compare_antisym ey ex), (Pos.compare_antisym my mx).
  destruct sx, sy, (ey ?= ex)%Z, (my ?= mx)%positive; reflexivity.
Qed.

Lemma SFleb_trans (x y z : spec_float) :
  SFleb x y = true -> SFleb y z = true -> SFleb x z = true.
Proof.
  unfold SFleb.
  destruct x as [sx|sx| |sx mx ex], y as [sy|sy| |sy my ey], z as [sz|sz| |sz mz ez];
    simpl; try discriminate; try reflexivity;
    repeat match goal with s : bool |- _ => destruct s end;
    simpl; try discriminate; try reflexivity.
  all: change (Pos.compare_cont Eq ?a ?b) with (Pos.compare a b).
  all: destruct (Z.compare_spec ex ey), (Z.compare_spec ey ez), (Z.compare_spec ex ez);
    try lia; try discriminate; try reflexivity; simpl; subst.
  all: destruct (Pos.compare_spec mx my), (Pos.compare_spec my mz), (Pos.compare_spec mx mz);
    try lia; try discriminate; try reflexivity.
Qed.

Lemma leb_trans (x y z : float) :
  (x <=? y)%float = true -> (y <=? z)%float = true -> (x <=? z)%float = true.
Proof. rewrite !FloatAxioms.leb_spec. apply SFleb_trans. Qed.

Lemma mul_comm (x y : float) : (x * y = y * x)%float.
Proof.
  apply Prim2SF_inj. rewrite !mul_spec. unfold SF64mul.
  destruct (Prim2SF x) as [sx|sx| |sx mx ex], (Prim2SF y) as [sy|sy| |sy my ey];
    simpl; rewrite ?(xorb_comm sx sy); try reflexivity.
  now rewrite (Pos.mul_comm mx my), (Z.add_comm ex ey).
Qed.

Lemma ltb_leb (x y : float) :
  (x <? y)%float = true -> (x <=? y)%float = true.
Proof.
  rewrite FloatAxioms.ltb_spec, FloatAxioms.leb_spec. unfold SFltb, SFleb.
  destruct (SFcompare _ _) as [[]|]; congruence.
Qed.

Lemma ltb_not_leb (x y : float) :
  (x <? y)%float = true -> (y <=? x)%float = false.
Proof.
  rewrite FloatAxioms.ltb_spec, FloatAxioms.leb_spec. unfold SFltb, SFleb.
  destruct (SFcompare (Prim2SF x) (Prim2SF y)) as [c|] eqn:E; [|discriminate].
  rewrite (SFcompare_swap _ _ _ E). destruct c; simpl; congruence.
Qed.

Lemma leb_not_ltb (x y : float) :
  (x <=? y)%float = true -> (y <? x)%float = false.
Proof.
  intros H. destruct (y <? x)%float eqn:E; [|reflexivity].
  apply ltb_not_leb in E. congruence.
Qed.

(** A number above [b] is not at or below any [a <= b], nor below any
    [c <= b]. *)
Lemma above_not_leb (a b d : float) :
  (a <=? b)%float = true -> (b <? d)%float = true -> (d <=? a)%float = false.
Proof.
  intros Hab Hbd. destruct (d <=? a)%float eqn:E; [|reflexivity].
  pose proof (leb_trans _ _ _ E Hab) as H.
  apply ltb_not_leb in Hbd. congruence.
Qed.

Lemma above_not_ltb (c b d : float) :
  (c <=? b)%float = true -> (b <=? d)%float = true -> (d <? c)%float = false.
Proof.
  intros Hcb Hbd. apply leb_not_ltb. exact (leb_trans _ _ _ Hcb Hbd).
Qed.

Lemma add_zero_l (h : float) :
  Prim2SF h <> S754_zero true -> (0 + h = h)%float.
Proof.
  intros H. apply Prim2SF_inj. rewrite add_spec. unfold SF64add.
  change (Prim2SF 0) with (S754_zero false).
  destruct (Prim2SF h) as [[]| | |]; simpl; congruence.
Qed.
Lemma float_neq (x y : float) :
  (x =? y)%float = false -> (y =? y)%float = true -> x <> y.
Proof. intros H1 H2 ->. congruence. Qed.

(** [NaN] absorbs products and sums. *)
Lemma mul_nan_l (y : float) : (PrimFloat.nan * y)%float = PrimFloat.nan.
Proof.
  apply FloatAxioms.Prim2SF_inj. rewrite FloatAxioms.mul_spec.
  change (Prim2SF PrimFloat.nan) with S754_nan. reflexivity.
Qed.

Lemma add_nan_l (y : float) : (PrimFloat.nan + y)%float = PrimFloat.nan.
Proof.
  apply FloatAxioms.Prim2SF_inj. rewrite FloatAxioms.add_spec.
  change (Prim2SF PrimFloat.nan) with S754_nan. reflexivity.
Qed.



Lemma add_nan_r (x : float) : (x + PrimFloat.nan)%float = PrimFloat.nan.
Proof.
  apply FloatAxioms.Prim2SF_inj. rewrite FloatAxioms.add_spec.
  change (Prim2SF PrimFloat.nan) with S754_nan.
  destruct (Prim2SF x); reflexivity.
Qed.

End FloatFacts.


(** ** The sub-scores *)

Section ScorerFacts.

Variable clock : nat -> float.
Variable dateTime : string -> float.

Lemma deadlineBand_values (d : float) : In (deadlineBand d) deadlineValues.
Proof.
  unfold deadlineBand.
  repeat match goal with
         | |- context [if ?b then _ else _] => destruct b
         end; in_list.
Qed.

Lemma getDeadlineScore_rule (dueDate : option string) (k : nat) :
  fst (getDeadlineScore clock dateTime dueDate k) =
  deadlineRule (daysRemaining clock dateTime dueDate k).
Proof. destruct dueDate as [[|c s]|]; reflexivity. Qed.

Lemma getDeadlineScore_values (dueDate : option string) (k : nat) :
  In (fst (getDeadlineScore clock dateTime dueDate k)) deadlineValues.
Proof.
  destruct dueDate as [[|c s]|]; try in_list.
  run_clocked. apply deadlineBand_values.
Qed.

Lemma inheritedName_In (c : string) :
  inheritedName c = true <-> In c objectPrototypeNames.
Proof.
  unfold inheritedName. rewrite existsb_exists. split.
  - intros (x & I & E). apply String.eqb_eq in E. now subst.
  - intros I. exists c. split; [exact I | apply String.eqb_refl].
Qed.

Lemma inheritedName_not_In (c : string) :
  inheritedName c = false <-> ~ In c objectPrototypeNames.
Proof.
  rewrite <- inheritedName_In. destruct (inheritedName c); split; congruence.
Qed.

(** An own key answers with its number, and any other name that is not
    inherited with the default. *)
Lemma categoryBase_rule (c : string) :
  inheritedName c = false -> categoryBase c = JS.Num (categoryBaseRule c).
Proof.
  intros H. unfold categoryBase, categoryImpactAt, categoryBaseRule, categoryImpact.
  repeat match goal with
         | |- context [String.eqb c ?k] =>
             destruct (String.eqb_spec c k) as [->|];
             [vm_compute; reflexivity | rewrite lookup_insert_ne by congruence]
         end.
  rewrite lookup_empty, H. reflexivity.
Qed.

(** An inherited name answers with the member, which is no own key. *)
Lemma categoryBase_inherited (c : string) :
  inheritedName c = true -> categoryBase c = JS.Obj.
Proof.
  intros H. apply inheritedName_In in H. unfold objectPrototypeNames in H.
  cbn [In] in H.
  repeat (destruct H as [<-|H]; [vm_compute; reflexivity|]).
  contradiction.
Qed.

Lemma getImpactScore_rule (t : Task) :
  inheritedName (category t) = false -> getImpactScore t = impactRule t.
Proof.
  intros H. unfold getImpactScore, impactRule, effortBonus.
  rewrite (categoryBase_rule _ H). unfold categoryBaseRule.
  destruct (estimated_hours t) as [h|];
    [destruct (JS.truthy h), (JS.gt h 8), (JS.gt h 4) |];
    repeat destruct (String.eqb _ _); vm_compute; reflexivity.
Qed.

(** Under an inherited name the impact sub-score is [NaN], whatever the
    hours. *)
Lemma getImpactScore_inherited (t : Task) :
  inheritedName (category t) = true -> getImpactScore t = PrimFloat.nan.
Proof.
  intros H. unfold getImpactScore. rewrite (categoryBase_inherited _ H).
  destruct (estimated_hours t) as [h|];
    [destruct (JS.truthy h), (JS.gt h 8), (JS.gt h 4) |]; reflexivity.
Qed.

Lemma impactRule_values (t : Task) : In (impactRule t) impactValues.
Proof.
  unfold impactRule, effortBonus, categoryBaseRule.
  destruct (estimated_hours t) as [h|];
    [destruct (JS.truthy h), (JS.gt h 8), (JS.gt h 4) |];
    repeat destruct (String.eqb _ _); vm_compute; in_list.
Qed.

Lemma getImpactScore_values (t : Task) :
  inheritedName (category t) = false -> In (getImpactScore t) impactValues.
Proof. intros H. rewrite (getImpactScore_rule _ H). apply impactRule_values. Qed.

Lemma getDependencyScore_values (t : Task) :
  In (getDependencyScore t) dependencyValues.
Proof. unfold getDependencyScore. destruct (_ || _); in_list. Qed.

Lemma getComplexityScore_values (h : option float) :
  In (getComplexityScore h) complexityValues.
Proof.
  unfold getComplexityScore. destruct h as [h|]; [|in_list].
  repeat match goal with
         | |- context [if ?b then _ else _] => destruct b
         end; in_list.
Qed.

Lemma weightedSum_in_table (d i p c : float) :
  In d deadlineValues -> In i impactValues ->
  In p dependencyValues -> In c complexityValues ->
  In (weightedSum (mkFactors d i p c)) scoreTable.
Proof.
  intros Hd Hi Hp Hc. unfold scoreTable.
  apply in_flat_map; exists d; split; [exact Hd|].
  apply in_flat_map; exists i; split; [exact Hi|].
  apply in_flat_map; exists p; split; [exact Hp|].
  apply in_map_iff; exists c; split; [reflexivity | exact Hc].
Qed.

(** What [calculateUrgencyScore] returns, field by field. *)
Lemma calculateUrgencyScore_eq (t : Task) (k : nat) :
  let d := fst (getDeadlineScore clock dateTime (due_date t) k) in
  let f := mkFactors d (getImpactScore t) (getDependencyScore t)
             (getComplexityScore (estimated_hours t)) in
  calculateUrgencyScore clock dateTime t k =
  (mkResult t (weightedSum f) f (generateRecommendation f (weightedSum f)),
   snd (getDeadlineScore clock dateTime (due_date t) k)).
Proof.
  unfold calculateUrgencyScore, getUrgencyFactors. run_clocked.
  destruct (getDeadlineScore clock dateTime (due_date t) k); reflexivity.
Qed.

Lemma urgencyScore_in_table (t : Task) (k : nat) :
  inheritedName (category t) = false ->
  In (urgencyScore (fst (calculateUrgencyScore clock dateTime t k))) scoreTable.
Proof.
  intros H. rewrite calculateUrgencyScore_eq; simpl.
  apply weightedSum_in_table;
    auto using getDeadlineScore_values, getImpactScore_values,
      getDependencyScore_values, getComplexityScore_values.
Qed.

Lemma weightedSum_nan (f : UrgencyFactors) :
  impact f = PrimFloat.nan -> weightedSum f = PrimFloat.nan.
Proof.
  intros H. unfold weightedSum.
  now rewrite H, mul_nan_l, add_nan_r, !add_nan_l.
Qed.

(** Under an inherited name the impact sub-score and the urgency score of
    the result are [NaN]. *)
Lemma urgencyScore_inherited (t : Task) (k : nat) :
  inheritedName (category t) = true ->
  impact (factors (fst (calculateUrgencyScore clock dateTime t k))) = PrimFloat.nan /\
  urgencyScore (fst (calculateUrgencyScore clock dateTime t k)) = PrimFloat.nan.
Proof.
  intros H. rewrite calculateUrgencyScore_eq. cbn [fst factors urgencyScore impact].
  split; [now apply getImpactScore_inherited|].
  apply weightedSum_nan. now apply getImpactScore_inherited.
Qed.








(** C2: the urgency score returned for a task is the weighted sum
    0.40*deadline + 0.30*impact + 0.20*dependency + 0.10*complexity,
    evaluated in binary64 from left to right, of the four sub-scores
    computed for that task, which are the factors returned with it. *)
Theorem urgencyScore_formula (t : Task) (k : nat) :
  let r := fst (calculateUrgencyScore clock dateTime t k) in
  factors r =
    {| deadline := fst (getDeadlineScore clock dateTime (due_date t) k);
       impact := getImpactScore t;
       dependency := getDependencyScore t;
       complexity := getComplexityScore (estimated_hours t) |} /\
  urgencyScore r =
    (0.40 * deadline (factors r) + 0.30 * impact (factors r) +
     0.20 * dependency (factors r) + 0.10 * complexity (factors r))%float.
Proof.
  rewrite calculateUrgencyScore_eq; simpl. split; [reflexivity|].
  unfold weightedSum; simpl.
  unfold weight_deadline, weight_impact, weight_dependency, weight_complexity.
  now rewrite !(mul_comm _ 0.40), !(mul_comm _ 0.30), !(mul_comm _ 0.20),
    !(mul_comm _ 0.10).
Qed.

(** C3: the deadline sub-score is 2 when there is no due date; with one,
    it is 10 when the days remaining (due date minus the clock, in
    fractional days) are negative, otherwise 9 up to 1 day, 8 up to 3 days,
    6 up to 7, 4 up to 14, 3 up to 30 and 2 beyond, the first matching
    line winning. *)
Theorem deadline_score_rule (dueDate : option string) (k : nat) :
  let score := fst (getDeadlineScore clock dateTime dueDate k) in
  score = deadlineRule (daysRemaining clock dateTime dueDate k) /\
  match daysRemaining clock dateTime dueDate k with
  | None => score = 2%float
  | Some d =>
      ((d <? 0)%float = true -> score = 10%float) /\
      ((0 <=? d)%float = true -> (d <=? 1)%float = true -> score = 9%float) /\
      ((1 <? d)%float = true -> (d <=? 3)%float = true -> score = 8%float) /\
      ((3 <? d)%float = true -> (d <=? 7)%float = true -> score = 6%float) /\
      ((7 <? d)%float = true -> (d <=? 14)%float = true -> score = 4%float) /\
      ((14 <? d)%float = true -> (d <=? 30)%float = true -> score = 3%float) /\
      ((30 <? d)%float = true -> score = 2%float)
  end.
Proof.
  cbv zeta. split; [destruct dueDate as [[|c s]|]; reflexivity|].
  destruct dueDate as [[|c s]|]; try reflexivity.
  unfold getDeadlineScore, daysRemaining. run_clocked.
  set (d := ((dateTime (String c s) - clock k) / msPerDay)%float).
  unfold deadlineBand.
  assert (L : forall a b, (a <=? b)%float = true -> (b <? d)%float = true ->
                          (d <=? a)%float = false)
    by (intros a b; apply above_not_leb).
  assert (N : forall b, (0 <=? b)%float = true -> (b <=? d)%float = true ->
                        (d <? 0)%float = false)
    by (intros b; apply above_not_ltb).
  repeat split.
  - intros ->. reflexivity.
  - intros H0 H1. now rewrite (N 0%float eq_refl H0), H1.
  - intros H1 H3. rewrite (N 1%float eq_refl (ltb_leb _ _ H1)).
    now rewrite (L 1%float 1%float eq_refl H1), H3.
  - intros H3 H7. rewrite (N 3%float eq_refl (ltb_leb _ _ H3)).
    now rewrite (L 1%float 3%float eq_refl H3), (L 3%float 3%float eq_refl H3), H7.
  - intros H7 H14. rewrite (N 7%float eq_refl (ltb_leb _ _ H7)).
    now rewrite (L 1%float 7%float eq_refl H7), (L 3%float 7%float eq_refl H7),
      (L 7%float 7%float eq_refl H7), H14.
  - intros H14 H30. rewrite (N 14%float eq_refl (ltb_leb _ _ H14)).
    now rewrite (L 1%float 14%float eq_refl H14), (L 3%float 14%float eq_refl H14),
      (L 7%float 14%float eq_refl H14), (L 14%float 14%float eq_refl H14), H30.
  - intros H30. rewrite (N 30%float eq_refl (ltb_leb _ _ H30)).
    now rewrite (L 1%float 30%float eq_refl H30), (L 3%float 30%float eq_refl H30),
      (L 7%float 30%float eq_refl H30), (L 14%float 30%float eq_refl H30),
      (L 30%float 30%float eq_refl H30).
Qed.



(** C7, amended: for an exhibition task of 2 hours whose due date is at
    most one day ahead of the clock and not past, the factors are
    deadline 9, impact 6, dependency 5 and complexity 2 (2 hours are not
    above 2), and the urgency score is the binary64 value
    6.6000000000000005; for an admin task with no due date and no hours,
    the four factors are 2 and the urgency score is the binary64 value
    1.9999999999999998, the rounded sum of the four rounded products. *)
Theorem worked_examples (t u : Task) (d : string) (k j : nat) :
  category t = "exhibition" -> estimated_hours t = Some 2%float ->
  due_date t = Some d -> d <> EmptyString ->
  ((dateTime d - clock k) / msPerDay <? 0)%float = false ->
  ((dateTime d - clock k) / msPerDay <=? 1)%float = true ->
  category u = "admin" -> estimated_hours u = None -> due_date u = None ->
  let r := fst (calculateUrgencyScore clock dateTime t k) in
  let s := fst (calculateUrgencyScore clock dateTime u j) in
  factors r = mkFactors 9 6 5 2 /\
  urgencyScore r = 6.6000000000000005%float /\
  factors s = mkFactors 2 2 2 2 /\
  urgencyScore s = 1.9999999999999998%float.
Proof.
  intros Ct Ht Dt Dne D0 D1 Cu Hu Du. cbv zeta.
  rewrite !calculateUrgencyScore_eq. cbn [fst factors urgencyScore].
  rewrite !getDeadlineScore_rule.
  destruct t as [ti tt tc th td tst], u as [ui ut uc uh ud ust].
  simpl in Ct, Ht, Dt, Cu, Hu, Du. subst. cbn [due_date estimated_hours].
  unfold daysRemaining, deadlineRule.
  destruct d as [|c d]; [congruence|]. rewrite D0, D1.
  repeat split; vm_compute; reflexivity.
Qed.


End ScorerFacts.


(** ** Ranking *)

Section RankingFacts.

Variable clock : nat -> float.
Variable dateTime : string -> float.

Lemma mapClocked_Forall2 {A B} (f : A -> Clocked B) (P : A -> B -> Prop) :
  (forall x k, P x (fst (f x k))) ->
  forall xs k, Forall2 P xs (fst (mapClocked f xs k)).
Proof.
  intros Hf xs. induction xs as [|x xs IH]; intros k; simpl.
  - constructor.
  - run_clocked. specialize (Hf x k). destruct (f x k) as [y k1].
    specialize (IH k1). destruct (mapClocked f xs k1) as [ys k2].
    simpl in *. now constructor.
Qed.

Lemma insertBy_perm {A} (cmp : A -> A -> float) (a : A) (l : list A) :
  Permutation (JS.insertBy cmp a l) (a :: l).
Proof.
  induction l as [|b l IH]; simpl; [reflexivity|].
  destruct (JS.gt (cmp a b) 0); [|reflexivity].
  rewrite IH. apply perm_swap.
Qed.

Lemma Array_sort_perm {A} (cmp : A -> A -> float) (l : list A) :
  Permutation (JS.Array_sort cmp l) l.
Proof.
  induction l as [|a l IH]; simpl; [reflexivity|].
  unfold JS.Array_sort in *. rewrite insertBy_perm. now constructor.
Qed.

Lemma comparatorAgrees_table : comparatorAgreesOn scoreTable = true.
Proof. vm_compute. reflexivity. Qed.

Lemma byUrgencyDesc_after (a b : PriorityCalculationResult) :
  In (urgencyScore a) scoreTable -> In (urgencyScore b) scoreTable ->
  JS.gt (byUrgencyDesc a b) 0 = true -> notBelow b a.
Proof.
  intros Ha Hb H. pose proof comparatorAgrees_table as T.
  unfold comparatorAgreesOn in T.
  rewrite forallb_forall in T. specialize (T _ Ha).
  rewrite forallb_forall in T. specialize (T _ Hb).
  unfold byUrgencyDesc in H. rewrite H in T. exact T.
Qed.

Lemma byUrgencyDesc_before (a b : PriorityCalculationResult) :
  In (urgencyScore a) scoreTable -> In (urgencyScore b) scoreTable ->
  JS.gt (byUrgencyDesc a b) 0 = false -> notBelow a b.
Proof.
  intros Ha Hb H. pose proof comparatorAgrees_table as T.
  unfold comparatorAgreesOn in T.
  rewrite forallb_forall in T. specialize (T _ Ha).
  rewrite forallb_forall in T. specialize (T _ Hb).
  unfold byUrgencyDesc in H. rewrite H in T. exact T.
Qed.

Lemma notBelow_trans (a b c : PriorityCalculationResult) :
  notBelow a b -> notBelow b c -> notBelow a c.
Proof. unfold notBelow. intros H1 H2. exact (leb_trans _ _ _ H2 H1). Qed.

Lemma insertBy_HdRel (b a : PriorityCalculationResult) (l : list PriorityCalculationResult) :
  notBelow b a -> HdRel notBelow b l ->
  HdRel notBelow b (JS.insertBy byUrgencyDesc a l).
Proof.
  intros Hba Hl. destruct l as [|c l]; simpl; [now constructor|].
  destruct (JS.gt (byUrgencyDesc a c) 0); constructor; auto.
  now inversion Hl.
Qed.

Lemma insertBy_sorted (a : PriorityCalculationResult) (l : list PriorityCalculationResult) :
  tabled a -> Forall tabled l -> Sorted notBelow l ->
  Sorted notBelow (JS.insertBy byUrgencyDesc a l).
Proof.
  intros Ha Hl Hs. induction l as [|b l IH]; simpl.
  - repeat constructor.
  - inversion Hl as [|? ? Hb Hl']; subst. inversion Hs as [|? ? Hs' Hhd]; subst.
    destruct (JS.gt (byUrgencyDesc a b) 0) eqn:E.
    + constructor; [now apply IH|].
      apply insertBy_HdRel; [|exact Hhd].
      now apply byUrgencyDesc_after.
    + constructor; [exact Hs|]. constructor.
      now apply byUrgencyDesc_before.
Qed.

Lemma Array_sort_descending (l : list PriorityCalculationResult) :
  Forall tabled l -> descending (JS.Array_sort byUrgencyDesc l).
Proof.
  intros Hl. apply Sorted_StronglySorted; [exact notBelow_trans|].
  induction Hl as [|a l Ha Hl IH]; simpl; [constructor|].
  apply insertBy_sorted; [exact Ha| |exact IH].
  eapply Permutation_Forall; [symmetry; apply Array_sort_perm|exact Hl].
Qed.

Lemma descending_take (n : nat) (l : list PriorityCalculationResult) :
  descending l -> descending (take n l).
Proof.
  unfold descending. intros H. revert n.
  induction H as [|a l Hl IH Ha]; intros [|n]; simpl; try constructor; auto.
  now apply Forall_take.
Qed.


Lemma scored_tabled (ts : list Task) (rs : list PriorityCalculationResult) :
  Forall (fun t => ~ In (category t) objectPrototypeNames) ts ->
  Forall2 (scoredAs clock dateTime) ts rs -> Forall tabled rs.
Proof.
  intros N F. induction F as [|t r ts rs [j ->] _ IH]; [constructor|].
  inversion N as [|? ? Nt Nts]; subst. constructor; [|now apply IH].
  apply urgencyScore_in_table. now apply inheritedName_not_In.
Qed.

(** The whole ranking is in descending order when no eligible task has an
    inherited name for category. *)
Lemma ranking_descending (ts : list Task) (scored : list PriorityCalculationResult) :
  ownCategories ts ->
  Forall2 (scoredAs clock dateTime) (List.filter isEligible ts) scored ->
  descending (JS.Array_sort byUrgencyDesc scored).
Proof.
  intros N F. apply Array_sort_descending. exact (scored_tabled _ _ N F).
Qed.

(** The ranking as the source computes it: the eligible tasks, scored in
    order, sorted, and cut to three. *)
Lemma calculateTopPriorityTasks_eq (ts : list Task) (k : nat) :
  exists scored,
    Forall2 (scoredAs clock dateTime) (List.filter isEligible ts) scored /\
    fst (calculateTopPriorityTasks clock dateTime ts k) =
    take 3 (JS.Array_sort byUrgencyDesc scored).
Proof.
  unfold calculateTopPriorityTasks. run_clocked.
  pose proof (mapClocked_Forall2 (calculateUrgencyScore clock dateTime)
                (scoredAs clock dateTime)) as M.
  specialize (M (fun x j => ex_intro _ j eq_refl) (List.filter isEligible ts) k).
  destruct (mapClocked _ _ k) as [scored k']. simpl in *.
  exists scored. split; [exact M | reflexivity].
Qed.

Lemma calculateTopPriorityTasks_length (ts : list Task) (k : nat) :
  (length (fst (calculateTopPriorityTasks clock dateTime ts k)) <= 3)%nat.
Proof.
  destruct (calculateTopPriorityTasks_eq ts k) as (scored & _ & ->).
  rewrite length_take. lia.
Qed.


End RankingFacts.

(** ** Slots and balancing *)

Section PlannerFacts.

Variable clock : nat -> float.
Variable dateTime : string -> float.
Variable isoDate : float -> string.

Lemma distribute_cases (m a e : ScheduleSlot) (t : Task) :
  (goesMorning t = true /\ goesAfternoon t = false /\ goesEvening t = false /\
   distribute (m, a, e) t = (push m t, a, e)) \/
  (goesMorning t = false /\ goesAfternoon t = true /\ goesEvening t = false /\
   distribute (m, a, e) t = (m, push a t, e)) \/
  (goesMorning t = false /\ goesAfternoon t = false /\ goesEvening t = true /\
   distribute (m, a, e) t = (m, a, push e t)).
Proof.
  unfold distribute, goesAfternoon, goesEvening, goesMorning.
  destruct (isCreative t && isComplex t); destruct (_ || _); simpl; auto 10.
Qed.

Lemma distribute_tasks (ts : list Task) (m a e : ScheduleSlot) :
  let '(m', a', e') := foldl distribute (m, a, e) ts in
  tasks m' = tasks m ++ List.filter goesMorning ts /\
  tasks a' = tasks a ++ List.filter goesAfternoon ts /\
  tasks e' = tasks e ++ List.filter goesEvening ts.
Proof.
  revert m a e. induction ts as [|t ts IH]; intros m a e.
  - simpl. now rewrite !app_nil_r.
  - change (foldl distribute (m, a, e) (t :: ts))
      with (foldl distribute (distribute (m, a, e) t) ts).
    cbn [List.filter].
    destruct (distribute_cases m a e t)
      as [(-> & -> & -> & ->)|[(-> & -> & -> & ->)|(-> & -> & -> & ->)]].
    + specialize (IH (push m t) a e).
      destruct (foldl distribute _ ts) as [[m' a'] e']. simpl in IH.
      rewrite <- app_assoc in IH. exact IH.
    + specialize (IH m (push a t) e).
      destruct (foldl distribute _ ts) as [[m' a'] e']. simpl in IH.
      rewrite <- app_assoc in IH. exact IH.
    + specialize (IH m a (push e t)).
      destruct (foldl distribute _ ts) as [[m' a'] e']. simpl in IH.
      rewrite <- app_assoc in IH. exact IH.
Qed.

Lemma last_removelast (ts : list Task) (x : Task) :
  last ts = Some x -> removelast ts ++ [x] = ts.
Proof.
  intros H. apply last_Some in H as [l ->].
  now rewrite removelast_last.
Qed.

Lemma sumHours_snoc (l : list Task) (x : Task) :
  sumHours (l ++ [x]) = (sumHours l + hoursOf x)%float.
Proof. unfold sumHours. now rewrite foldl_app. Qed.

(** The loop on one slot, with fuel enough: it removes a tail, never the
    whole list, and stops with a running total that is not above the cap
    or with at most one task. *)
Lemma trimLoop_spec (fuel : nat) (total : float) (ts : list Task) :
  (length ts <= fuel)%nat ->
  exists dropped,
    ts = snd (trimLoop fuel total ts) ++ dropped /\
    fst (trimLoop fuel total ts) = runningTotal total dropped /\
    (ts <> [] -> snd (trimLoop fuel total ts) <> []) /\
    ((length (snd (trimLoop fuel total ts)) <= 1)%nat \/
     JS.gt (fst (trimLoop fuel total ts)) maxHoursPerSlot = false).
Proof.
  revert total ts. induction fuel as [|fuel IH]; intros total ts Hlen.
  - destruct ts; [|simpl in Hlen; lia]. exists []. simpl. auto with lia.
  - simpl. destruct (JS.gt total maxHoursPerSlot && (1 <? length ts)%nat) eqn:C.
    + apply andb_true_iff in C as [_ C]. apply Nat.ltb_lt in C.
      destruct (last ts) as [x|] eqn:L.
      2: { apply last_None in L. subst. simpl in C. lia. }
      pose proof (last_removelast _ _ L) as R.
      assert (Hr : (length (removelast ts) <= fuel)%nat).
      { rewrite <- R in Hlen, C. rewrite length_app in Hlen, C. simpl in *. lia. }
      destruct (IH (total - hoursOf x)%float (removelast ts) Hr)
        as (dropped & E1 & E2 & E3 & E4).
      exists (dropped ++ [x]). repeat split.
      * rewrite app_assoc, <- E1. now symmetry.
      * rewrite E2. unfold runningTotal. now rewrite foldr_app.
      * intros _. apply E3. intros N. rewrite N in R. rewrite <- R in C.
        simpl in C. lia.
      * exact E4.
    + exists []. simpl. rewrite app_nil_r. repeat split; auto.
      apply andb_false_iff in C as [C|C]; [now right|left].
      apply Nat.ltb_ge in C. exact C.
Qed.

Lemma balanceSlot_spec (b : ScheduleSlot) :
  exists dropped,
    tasks b = tasks (balanceSlot b) ++ dropped /\
    (tasks b <> [] -> tasks (balanceSlot b) <> []) /\
    ((length (tasks (balanceSlot b)) <= 1)%nat \/
     JS.gt (runningTotal (sumHours (tasks b)) dropped) maxHoursPerSlot = false).
Proof.
  destruct (trimLoop_spec (length (tasks b)) (sumHours (tasks b)) (tasks b))
    as (dropped & E1 & E2 & E3 & E4); [lia|].
  exists dropped. simpl. rewrite <- E2. auto.
Qed.

Lemma hoursOf_not_neg_zero (t : Task) : Prim2SF (hoursOf t) <> S754_zero true.
Proof.
  unfold hoursOf, JS.orZero. destruct (estimated_hours t) as [h|].
  2: { vm_compute. discriminate. }
  destruct (JS.truthy h) eqn:T.
  2: { vm_compute. discriminate. }
  unfold JS.truthy in T. apply negb_true_iff, orb_false_iff in T as [_ T].
  rewrite FloatAxioms.eqb_spec in T. intros N. rewrite N in T.
  vm_compute in T. discriminate.
Qed.

Lemma sumHours_singleton (t : Task) : sumHours [t] = hoursOf t.
Proof. apply add_zero_l, hoursOf_not_neg_zero. Qed.

(** With exact subtractions the running total the loop ends with is the
    sum of what is left. *)
Lemma runningTotal_exact (kept dropped : list Task) :
  exactRemovals kept dropped ->
  runningTotal (sumHours (kept ++ dropped)) dropped = sumHours kept.
Proof.
  intros H. destruct dropped as [|x d].
  - now rewrite app_nil_r.
  - specialize (H [] x d eq_refl). rewrite app_nil_r in H. exact H.
Qed.

Lemma balanceSlot_balanced (b : ScheduleSlot) :
  balancedFrom (tasks b) (balanceSlot b).
Proof.
  destruct (balanceSlot_spec b) as (dropped & E1 & E2 & E3).
  exists dropped. repeat split; auto.
  intros X.
  destruct E3 as [L|G].
  - destruct (tasks (balanceSlot b)) as [|t [|u l]] eqn:K.
    + left. vm_compute. reflexivity.
    + destruct (JS.gt (sumHours [t]) maxHoursPerSlot) eqn:G; [right|now left].
      exists t. split; [reflexivity|]. now rewrite <- sumHours_singleton.
    + simpl in L. lia.
  - left. rewrite E1 in G. now rewrite runningTotal_exact in G.
Qed.

(** The schedule, slot by slot: the ranking is read after the date, and
    its tasks are distributed and balanced. *)
Lemma generateDailySchedule_slots (ts : list Task) (k : nat) :
  let s := fst (generateDailySchedule clock dateTime isoDate ts k) in
  let top := map task (fst (calculateTopPriorityTasks clock dateTime ts (S k))) in
  (length top <= 3)%nat /\
  exists m a e,
    tasks m = List.filter goesMorning top /\
    tasks a = List.filter goesAfternoon top /\
    tasks e = List.filter goesEvening top /\
    morning s = balanceSlot m /\ afternoon s = balanceSlot a /\
    evening s = balanceSlot e.
Proof.
  cbv zeta.
  unfold generateDailySchedule, mbind, clocked_bind, mret, clocked_ret, readClock.
  pose proof (calculateTopPriorityTasks_length clock dateTime ts (S k)) as L.
  destruct (calculateTopPriorityTasks clock dateTime ts (S k)) as [rs k'].
  cbn [fst snd] in *. unfold JS.slice0. rewrite (take_ge rs 10) by lia.
  split; [now rewrite length_map|].
  unfold categorizeTasksByEnergy.
  pose proof (distribute_tasks (map task rs)
                (fst (fst emptySlots)) (snd (fst emptySlots)) (snd emptySlots)) as D.
  change (fst (fst emptySlots), snd (fst emptySlots), snd emptySlots)
    with emptySlots in D.
  destruct (foldl distribute emptySlots (map task rs)) as [[m a] e].
  simpl in D. exists m, a, e. simpl. tauto.
Qed.

Lemma slot_partition (l : list Task) :
  (length (List.filter goesMorning l) + length (List.filter goesAfternoon l) +
   length (List.filter goesEvening l) = length l)%nat.
Proof.
  induction l as [|t l IH]; [reflexivity|]. cbn [List.filter].
  destruct (distribute_cases (fst (fst emptySlots)) (snd (fst emptySlots))
              (snd emptySlots) t)
    as [(-> & -> & -> & _)|[(-> & -> & -> & _)|(-> & -> & -> & _)]];
    simpl; lia.
Qed.

Lemma balancedFrom_length (before : list Task) (slot : ScheduleSlot) :
  balancedFrom before slot -> (length (tasks slot) <= length before)%nat.
Proof. intros (dropped & -> & _). rewrite length_app. lia. Qed.

Lemma balancedFrom_In (before : list Task) (slot : ScheduleSlot) (t : Task) :
  balancedFrom before slot -> In t (tasks slot) -> In t before.
Proof. intros (dropped & -> & _) H. apply in_or_app. now left. Qed.

(** A schedule never holds more than three tasks. *)
Lemma scheduled_at_most_three (ts : list Task) (k : nat) :
  (length (scheduled (fst (generateDailySchedule clock dateTime isoDate ts k))) <= 3)%nat.
Proof.
  destruct (generateDailySchedule_slots ts k)
    as (L & m & a & e & Em & Ea & Ee & Hm & Ha & He).
  pose proof (balancedFrom_length _ _ (balanceSlot_balanced m)) as Bm.
  pose proof (balancedFrom_length _ _ (balanceSlot_balanced a)) as Ba.
  pose proof (balancedFrom_length _ _ (balanceSlot_balanced e)) as Be.
  unfold scheduled. rewrite Hm, Ha, He, !length_app.
  rewrite Em, Ea, Ee in *.
  pose proof (slot_partition
    (map task (fst (calculateTopPriorityTasks clock dateTime ts (S k))))).
  cbv zeta in L. lia.
Qed.

(** C6, amended: in every schedule of [generateDailySchedule] each slot is
    what balancing leaves of its list: tasks are removed from the tail and
    one task always remains; the slot holds at most one task, or the
    running total of the loop (the binary64 sum of the list less the hours
    of each removed task) is not above 3.0.  Where the subtractions the
    loop performs are exact (each gives back the sum of the tasks before
    the removed one; nothing is asked of the tasks that stay), the summed
    hours of the slot are not above 3.0, except when the slot holds exactly
    one task whose hours alone are above 3.0. *)
Theorem slot_hours_cap (ts : list Task) (k : nat) :
  let s := fst (generateDailySchedule clock dateTime isoDate ts k) in
  let top := map task (fst (calculateTopPriorityTasks clock dateTime ts (S k))) in
  balancedSchedule top s.
Proof.
  cbv zeta. unfold balancedSchedule.
  destruct (generateDailySchedule_slots ts k)
    as (_ & m & a & e & <- & <- & <- & -> & -> & ->).
  repeat split; apply balanceSlot_balanced.
Qed.

Lemma zero_hours_not_complex (t : Task) :
  estimated_hours t = Some 0%float -> isComplex t = false.
Proof.
  intros H. unfold isComplex, hoursOf. rewrite H. vm_compute. reflexivity.
Qed.

Lemma morning_tasks_complex (ts : list Task) (k : nat) (t : Task) :
  In t (tasks (morning (fst (generateDailySchedule clock dateTime isoDate ts k)))) ->
  isCreative t = true /\ isComplex t = true.
Proof.
  destruct (generateDailySchedule_slots ts k) as (_ & m & _ & _ & Em & _ & _ & -> & _).
  intros H. apply (balancedFrom_In _ _ _ (balanceSlot_balanced m)) in H.
  rewrite Em in H. apply filter_In in H as [_ H].
  now apply andb_true_iff in H.
Qed.

(** C10: a task whose [estimated_hours] is exactly 0 is treated as one
    without the field: its complexity sub-score is 2, its impact sub-score
    has no effort bonus, so that all its factors and its urgency score are
    those of the task without hours; it is not complex for the slot
    assignment, and no schedule has it in the morning slot. *)
Theorem zero_hours_as_absent (t : Task) :
  estimated_hours t = Some 0%float ->
  getComplexityScore (estimated_hours t) = 2%float /\
  effortBonus (estimated_hours t) = 0%float /\
  getImpactScore t = getImpactScore (withoutHours t) /\
  (forall k,
     factors (fst (calculateUrgencyScore clock dateTime t k)) =
     factors (fst (calculateUrgencyScore clock dateTime (withoutHours t) k)) /\
     urgencyScore (fst (calculateUrgencyScore clock dateTime t k)) =
     urgencyScore (fst (calculateUrgencyScore clock dateTime (withoutHours t) k))) /\
  isComplex t = false /\
  goesMorning t = false /\
  (forall ts k,
     ~ In t (tasks (morning (fst (generateDailySchedule clock dateTime isoDate ts k))))).
Proof.
  intros H. pose proof (zero_hours_not_complex t H) as NC.
  assert (I : getImpactScore t = getImpactScore (withoutHours t)).
  { unfold getImpactScore. rewrite H. reflexivity. }
  assert (C : getComplexityScore (estimated_hours t) = 2%float).
  { rewrite H. reflexivity. }
  split; [exact C|]. split; [now rewrite H|]. split; [exact I|].
  split; [|split; [exact NC|split]].
  - intros k. rewrite !calculateUrgencyScore_eq. cbn [fst factors urgencyScore].
    change (due_date (withoutHours t)) with (due_date t).
    change (getDependencyScore (withoutHours t)) with (getDependencyScore t).
    rewrite <- I, C. split; reflexivity.
  - unfold goesMorning. rewrite NC. apply andb_false_r.
  - intros ts k M. apply morning_tasks_complex in M as [_ M]. congruence.
Qed.

End PlannerFacts.

(** ** The claims on concrete inputs *)

Section Examples.

(** C1, as the code runs it: no schedule holds more than three tasks,
    whatever the tasks submitted.  On twelve eligible tasks the ten most
    urgent ones are tasks 1, 2, 3, 4, 8, 5, 10, 6, 9 and 12, and
    distributing them would leave all ten in the slots; the schedule holds
    only the three most urgent, tasks 2, 1 and 3 in slot order, because the
    ranking it asks for is already cut to three. *)
Theorem twelve_tasks_schedule :
  (forall clock dateTime isoDate ts k,
     (length (scheduled (fst (generateDailySchedule clock dateTime isoDate ts k)))
      <= 3)%nat) /\
  length (List.filter isEligible twelveTasks) = 12%nat /\
  map id (fst (topTenCandidates exampleClock exampleDateTime twelveTasks 1)) =
    [1; 2; 3; 4; 8; 5; 10; 6; 9; 12]%Z /\
  map id (slotted (fst (topTenCandidates exampleClock exampleDateTime twelveTasks 1))) =
    [2; 4; 9; 12; 1; 3; 8; 5; 10; 6]%Z /\
  map id (scheduled twelveSchedule) = [2; 1; 3]%Z.
Proof.
  split; [exact scheduled_at_most_three|].
  vm_compute. repeat split; reflexivity.
Qed.




Lemma fourListedTasks_own : ownCategories fourListedTasks.
Proof.
  unfold ownCategories. simpl.
  repeat constructor; simpl; intuition discriminate.
Qed.


(** The cap fails on [overCapTasks]: after balancing the evening slot holds
    two tasks whose summed hours are above 3.0, as the schedule's own total
    shows. *)
Lemma slot_cap_exceeded :
  map id (tasks (evening overCapSchedule)) = [21; 22]%Z /\
  length (tasks (evening overCapSchedule)) = 2%nat /\
  JS.gt (sumHours (tasks (evening overCapSchedule))) 3 = true /\
  totalEstimatedHours overCapSchedule = 3.0000000000000004%float.
Proof. vm_compute. repeat split; reflexivity. Qed.

(** [slot_hours_cap] on [decimalHoursTasks]: the evening list holds the
    tasks 31, 32 and 33 with the total 3.5; the loop removes the task 33,
    and its one subtraction, 3.5 - 2.5, is exact, so the summed hours of
    the two tasks left are not above 3.0. *)
Lemma slot_hours_cap_decimal_hours :
  map id (tasks (evening decimalHoursSchedule)) = [31; 32]%Z /\
  (JS.gt (sumHours (tasks (evening decimalHoursSchedule))) maxHoursPerSlot = false \/
   exists t, tasks (evening decimalHoursSchedule) = [t] /\
             JS.gt (hoursOf t) maxHoursPerSlot = true).
Proof.
  split; [vm_compute; reflexivity|].
  destruct (slot_hours_cap exampleClock exampleDateTime exampleIsoDate
              decimalHoursTasks 0) as (_ & _ & (dropped & E & _ & _ & X)).
  apply X. vm_compute in E. injection E as <-.
  intros l x l' D. destruct l as [|y l].
  - injection D as <- <-. vm_compute. reflexivity.
  - injection D as _ D. destruct l; discriminate.
Defined.

(** The worked examples as the specification gives them fail: 2 hours give
    complexity 2, not 3, so the score is not 6.7; and the score of the bare
    admin task is not 2.0. *)
Lemma worked_examples_as_stated :
  complexity (factors (fst (calculateUrgencyScore exampleClock exampleDateTime
                              exhibitionDueToday 0))) = 2%float /\
  factors (fst (calculateUrgencyScore exampleClock exampleDateTime
                  exhibitionDueToday 0)) <> mkFactors 9 6 5 3 /\
  urgencyScore (fst (calculateUrgencyScore exampleClock exampleDateTime
                       exhibitionDueToday 0)) <> 6.7%float /\
  urgencyScore (fst (calculateUrgencyScore exampleClock exampleDateTime
                       adminBare 0)) <> 2%float.
Proof.
  split; [vm_compute; reflexivity|]. split; [|split].
  - intros H. apply (f_equal complexity) in H. revert H.
    apply float_neq; vm_compute; reflexivity.
  - apply float_neq; vm_compute; reflexivity.
  - apply float_neq; vm_compute; reflexivity.
Qed.

(** A due date given as the day of the clock alone is already past when
    the clock reads 09:00 of that day: the task counts as overdue. *)
Lemma date_only_today_is_overdue :
  factors (fst (calculateUrgencyScore exampleClock exampleDateTime
                  exhibitionDateOnly 0)) = mkFactors 10 6 5 2 /\
  urgencyScore (fst (calculateUrgencyScore exampleClock exampleDateTime
                       exhibitionDateOnly 0)) = 7%float.
Proof. vm_compute. split; reflexivity. Qed.

Lemma worked_examples_witness :
  factors (fst (calculateUrgencyScore exampleClock exampleDateTime
                  exhibitionDueToday 0)) = mkFactors 9 6 5 2 /\
  urgencyScore (fst (calculateUrgencyScore exampleClock exampleDateTime
                       exhibitionDueToday 0)) = 6.6000000000000005%float /\
  factors (fst (calculateUrgencyScore exampleClock exampleDateTime adminBare 0)) =
    mkFactors 2 2 2 2 /\
  urgencyScore (fst (calculateUrgencyScore exampleClock exampleDateTime adminBare 0)) =
    1.9999999999999998%float.
Proof.
  apply (worked_examples exampleClock exampleDateTime exhibitionDueToday adminBare
           "2026-11-03T18:00:00Z" 0 0);
    first [reflexivity | discriminate | vm_compute; reflexivity].
Defined.

Lemma deadline_score_witness :
  fst (getDeadlineScore exampleClock exampleDateTime (Some "2026-11-05") 0) = 8%float.
Proof.
  destruct (deadline_score_rule exampleClock exampleDateTime (Some "2026-11-05") 0)
    as [_ (_ & _ & H & _)].
  apply H; vm_compute; reflexivity.
Defined.





Lemma zero_hours_as_absent_witness :
  isCreative exhibitionZeroHours = true /\
  getComplexityScore (estimated_hours exhibitionZeroHours) = 2%float /\
  getImpactScore exhibitionZeroHours = 5%float /\
  isComplex exhibitionZeroHours = false /\
  goesMorning exhibitionZeroHours = false.
Proof.
  destruct (zero_hours_as_absent exampleClock exampleDateTime exampleIsoDate
              exhibitionZeroHours eq_refl) as (C & _ & I & _ & NC & NM & _).
  split; [reflexivity|]. split; [exact C|]. split; [|split; [exact NC | exact NM]].
  rewrite I. vm_compute. reflexivity.
Defined.

End Examples.

(** * Further properties of the engine *)

(** ** More facts about binary64 order *)

Section OrderFacts.

Lemma SFltb_leb_trans (x y z : spec_float) :
  SFltb x y = true -> SFleb y z = true -> SFltb x z = true.
Proof.
  unfold SFltb, SFleb.
  destruct x as [sx|sx| |sx mx ex], y as [sy|sy| |sy my ey], z as [sz|sz| |sz mz ez];
    simpl; try discriminate; try reflexivity;
    repeat match goal with s : bool |- _ => destruct s end;
    simpl; try discriminate; try reflexivity.
  all: change (Pos.compare_cont Eq ?a ?b) with (Pos.compare a b).
  all: destruct (Z.compare_spec ex ey), (Z.compare_spec ey ez), (Z.compare_spec ex ez);
    try lia; try discriminate; try reflexivity; simpl; subst.
  all: destruct (Pos.compare_spec mx my), (Pos.compare_spec my mz), (Pos.compare_spec mx mz);
    try lia; try discriminate; try reflexivity.
Qed.

Lemma SFleb_ltb_trans (x y z : spec_float) :
  SFleb x y = true -> SFltb y z = true -> SFltb x z = true.
Proof.
  unfold SFltb, SFleb.
  destruct x as [sx|sx| |sx mx ex], y as [sy|sy| |sy my ey], z as [sz|sz| |sz mz ez];
    simpl; try discriminate; try reflexivity;
    repeat match goal with s : bool |- _ => destruct s end;
    simpl; try discriminate; try reflexivity.
  all: change (Pos.compare_cont Eq ?a ?b) with (Pos.compare a b).
  all: destruct (Z.compare_spec ex ey), (Z.compare_spec ey ez), (Z.compare_spec ex ez);
    try lia; try discriminate; try reflexivity; simpl; subst.
  all: destruct (Pos.compare_spec mx my), (Pos.compare_spec my mz), (Pos.compare_spec mx mz);
    try lia; try discriminate; try reflexivity.
Qed.

Lemma ltb_leb_trans (x y z : float) :
  (x <? y)%float = true -> (y <=? z)%float = true -> (x <? z)%float = true.
Proof. rewrite !FloatAxioms.ltb_spec, FloatAxioms.leb_spec. apply SFltb_leb_trans. Qed.

Lemma leb_ltb_trans (x y z : float) :
  (x <=? y)%float = true -> (y <? z)%float = true -> (x <? z)%float = true.
Proof. rewrite !FloatAxioms.ltb_spec, FloatAxioms.leb_spec. apply SFleb_ltb_trans. Qed.

Lemma SFcompare_refl (x : spec_float) :
  x <> S754_nan -> SFcompare x x = Some Eq.
Proof.
  destruct x as [s|s| |s m e]; simpl; intros H; try congruence.
  - destruct s; reflexivity.
  - change (Pos.compare_cont Eq m m) with (Pos.compare m m).
    rewrite Z.compare_refl, Pos.compare_refl. destruct s; reflexivity.
Qed.

Lemma ltb_not_nan_r (x y : float) :
  (x <? y)%float = true -> PrimFloat.is_nan y = false.
Proof.
  unfold PrimFloat.is_nan. rewrite FloatAxioms.ltb_spec, FloatAxioms.eqb_spec.
  unfold SFltb, SFeqb. intros H.
  rewrite SFcompare_refl; [reflexivity|].
  intros N. rewrite N in H. destruct (Prim2SF x); discriminate.
Qed.

Lemma eqb_leb (x y : float) :
  (x =? y)%float = true -> (x <=? y)%float = true /\ (y <=? x)%float = true.
Proof.
  rewrite FloatAxioms.eqb_spec, !FloatAxioms.leb_spec. unfold SFeqb, SFleb.
  destruct (SFcompare (Prim2SF x) (Prim2SF y)) as [c|] eqn:E; [|discriminate].
  rewrite (SFcompare_swap _ _ _ E). destruct c; simpl; intuition congruence.
Qed.

(** A number above a non-negative one is truthy. *)
Lemma gt_truthy (c h : float) :
  (0 <=? c)%float = true -> JS.gt h c = true -> JS.truthy h = true.
Proof.
  unfold JS.gt, JS.truthy. intros Hc Hh.
  rewrite (ltb_not_nan_r _ _ Hh). simpl.
  destruct (h =? 0)%float eqn:E; [|reflexivity].
  apply eqb_leb in E as [E _].
  pose proof (leb_ltb_trans _ _ _ Hc Hh) as L.
  apply ltb_not_leb in L. congruence.
Qed.

Lemma gt_mono (c h1 h2 : float) :
  JS.gt h1 c = true -> (h1 <=? h2)%float = true -> JS.gt h2 c = true.
Proof. unfold JS.gt. apply ltb_leb_trans. Qed.

Lemma gt_weaken (c c' h : float) :
  (c' <=? c)%float = true -> JS.gt h c = true -> JS.gt h c' = true.
Proof. unfold JS.gt. apply leb_ltb_trans. Qed.

Lemma leb_false_mono (c d1 d2 : float) :
  (d1 <=? c)%float = false -> (d1 <=? d2)%float = true -> (d2 <=? c)%float = false.
Proof.
  intros H1 H12. destruct (d2 <=? c)%float eqn:E; [|reflexivity].
  pose proof (leb_trans _ _ _ H12 E). congruence.
Qed.

Lemma ltb_false_mono (c d1 d2 : float) :
  (d1 <? c)%float = false -> (d1 <=? d2)%float = true -> (d2 <? c)%float = false.
Proof.
  intros H1 H12. destruct (d2 <? c)%float eqn:E; [|reflexivity].
  pose proof (leb_ltb_trans _ _ _ H12 E). congruence.
Qed.

End OrderFacts.

(** ** The sub-scores against hours and days *)

Section SubScoreProperties.

Variable clock : nat -> float.
Variable dateTime : string -> float.

Lemma complexityValues_lower (v : float) :
  In v complexityValues -> (2 <=? v)%float = true.
Proof. simpl. intuition (subst; reflexivity). Qed.

(** X5: more hours never lower the complexity sub-score. *)
Theorem complexity_monotone (h1 h2 : float) :
  (h1 <=? h2)%float = true ->
  (getComplexityScore (Some h1) <=? getComplexityScore (Some h2))%float = true.
Proof.
  intros H.
  assert (M : forall c, (0 <=? c)%float = true -> JS.gt h1 c = true ->
                        JS.truthy h2 = true /\ JS.gt h2 c = true).
  { intros c Hc G. pose proof (gt_mono _ _ _ G H) as G2.
    split; [exact (gt_truthy _ _ Hc G2) | exact G2]. }
  remember (getComplexityScore (Some h2)) as v2 eqn:E2.
  assert (L : (2 <=? v2)%float = true)
    by (subst v2; apply complexityValues_lower, getComplexityScore_values).
  unfold getComplexityScore in E2 |- *.
  destruct (JS.truthy h1); cbn [negb]; [|exact L].
  destruct (JS.gt h1 16) eqn:G16.
  { destruct (M 16%float eq_refl G16) as [T G]. rewrite T, G in E2.
    subst v2. reflexivity. }
  destruct (JS.gt h1 8) eqn:G8.
  { destruct (M 8%float eq_refl G8) as [T G]. rewrite T, G in E2.
    subst v2. cbn [negb]. destruct (JS.gt h2 16); reflexivity. }
  destruct (JS.gt h1 4) eqn:G4.
  { destruct (M 4%float eq_refl G4) as [T G]. rewrite T, G in E2.
    subst v2. cbn [negb]. destruct (JS.gt h2 16), (JS.gt h2 8); reflexivity. }
  destruct (JS.gt h1 2) eqn:G2.
  { destruct (M 2%float eq_refl G2) as [T G]. rewrite T, G in E2.
    subst v2. cbn [negb].
    destruct (JS.gt h2 16), (JS.gt h2 8), (JS.gt h2 4); reflexivity. }
  exact L.
Qed.

(** X6: for tasks of one category, more hours never lower the impact
    sub-score, as long as the smaller estimate is above 0 and the category
    is not the name of a member that objects inherit; for such a name both
    sub-scores are NaN. *)
Theorem impact_monotone_in_hours (t u : Task) (h1 h2 : float) :
  category t = category u ->
  estimated_hours t = Some h1 -> estimated_hours u = Some h2 ->
  (0 <? h1)%float = true -> (h1 <=? h2)%float = true ->
  (~ In (category t) objectPrototypeNames ->
   (getImpactScore t <=? getImpactScore u)%float = true) /\
  (In (category t) objectPrototypeNames ->
   PrimFloat.is_nan (getImpactScore t) = true /\
   PrimFloat.is_nan (getImpactScore u) = true).
Proof.
  intros C E1 E2 P H. split.
  2: { intros I. apply inheritedName_In in I.
       rewrite (getImpactScore_inherited t I).
       rewrite C in I. rewrite (getImpactScore_inherited u I).
       split; reflexivity. }
  intros N. apply inheritedName_not_In in N.
  assert (N' : inheritedName (category u) = false) by now rewrite <- C.
  assert (M : forall c, (0 <=? c)%float = true -> JS.gt h1 c = true ->
                        JS.truthy h2 = true /\ JS.gt h2 c = true).
  { intros c Hc G. pose proof (gt_mono _ _ _ G H) as G2.
    split; [exact (gt_truthy _ _ Hc G2) | exact G2]. }
  pose proof (gt_truthy 0 h1 eq_refl P) as T1.
  destruct (M 0%float eq_refl P) as [T2 _].
  rewrite (getImpactScore_rule _ N), (getImpactScore_rule _ N').
  unfold impactRule, effortBonus.
  rewrite <- C, E1, E2, T1, T2. unfold categoryBaseRule.
  destruct (JS.gt h1 8) eqn:G8.
  { destruct (M 8%float eq_refl G8) as [_ ->].
    repeat destruct (String.eqb _ _); reflexivity. }
  destruct (JS.gt h1 4) eqn:G4.
  { destruct (M 4%float eq_refl G4) as [_ ->].
    destruct (JS.gt h2 8); repeat destruct (String.eqb _ _); reflexivity. }
  destruct (JS.gt h2 8), (JS.gt h2 4);
    repeat destruct (String.eqb _ _); reflexivity.
Qed.

Lemma deadlineRule_antitone (d1 d2 : float) :
  (d1 <=? d2)%float = true ->
  (deadlineRule (Some d2) <=? deadlineRule (Some d1))%float = true.
Proof.
  intros H. unfold deadlineRule.
  destruct (d1 <? 0)%float eqn:N1.
  { repeat match goal with
           | |- context [if ?b then _ else _] => destruct b
           end; reflexivity. }
  rewrite (ltb_false_mono _ _ _ N1 H).
  destruct (d1 <=? 1)%float eqn:L1.
  { repeat match goal with
           | |- context [if ?b then _ else _] => destruct b
           end; reflexivity. }
  rewrite (leb_false_mono _ _ _ L1 H).
  destruct (d1 <=? 3)%float eqn:L3.
  { repeat match goal with
           | |- context [if ?b then _ else _] => destruct b
           end; reflexivity. }
  rewrite (leb_false_mono _ _ _ L3 H).
  destruct (d1 <=? 7)%float eqn:L7.
  { repeat match goal with
           | |- context [if ?b then _ else _] => destruct b
           end; reflexivity. }
  rewrite (leb_false_mono _ _ _ L7 H).
  destruct (d1 <=? 14)%float eqn:L14.
  { repeat match goal with
           | |- context [if ?b then _ else _] => destruct b
           end; reflexivity. }
  rewrite (leb_false_mono _ _ _ L14 H).
  destruct (d1 <=? 30)%float eqn:L30.
  { repeat match goal with
           | |- context [if ?b then _ else _] => destruct b
           end; reflexivity. }
  rewrite (leb_false_mono _ _ _ L30 H). reflexivity.
Qed.

(** X7: a due date with more days remaining never has the higher deadline
    sub-score. *)
Theorem deadline_antitone (due1 due2 : option string) (k j : nat) (d1 d2 : float) :
  daysRemaining clock dateTime due1 k = Some d1 ->
  daysRemaining clock dateTime due2 j = Some d2 ->
  (d1 <=? d2)%float = true ->
  (fst (getDeadlineScore clock dateTime due2 j) <=?
   fst (getDeadlineScore clock dateTime due1 k))%float = true.
Proof.
  intros E1 E2 H. rewrite !getDeadlineScore_rule, E1, E2.
  now apply deadlineRule_antitone.
Qed.

(** X8: the slot assignment and the scorer agree on what is complex: a
    task counts as complex for its slot exactly when its complexity
    sub-score is at least 3. *)
Theorem isComplex_iff_complexity (t : Task) :
  isComplex t = JS.ge (getComplexityScore (estimated_hours t)) 3.
Proof.
  unfold isComplex, hoursOf, JS.orZero, getComplexityScore.
  destruct (estimated_hours t) as [h|]; [|reflexivity].
  destruct (JS.truthy h); cbn [negb]; [|reflexivity].
  destruct (JS.gt h 2) eqn:G2.
  - destruct (JS.gt h 16), (JS.gt h 8), (JS.gt h 4); reflexivity.
  - assert (W : forall c, (2 <=? c)%float = true -> JS.gt h c = false).
    { intros c Hc. destruct (JS.gt h c) eqn:G; [|reflexivity].
      pose proof (gt_weaken _ _ _ Hc G). congruence. }
    now rewrite (W 16%float eq_refl), (W 8%float eq_refl), (W 4%float eq_refl).
Qed.

End SubScoreProperties.

(** ** The urgency score and its tiers *)

Section ScoreProperties.

Variable clock : nat -> float.
Variable dateTime : string -> float.

Lemma forallFactors_spec (P : float -> float -> float -> float -> bool) :
  forallFactors P = true ->
  forall d i p c,
    In d deadlineValues -> In i impactValues ->
    In p dependencyValues -> In c complexityValues -> P d i p c = true.
Proof.
  unfold forallFactors. intros H d i p c Hd Hi Hp Hc.
  rewrite forallb_forall in H. specialize (H d Hd).
  rewrite forallb_forall in H. specialize (H i Hi).
  rewrite forallb_forall in H. specialize (H p Hp).
  rewrite forallb_forall in H. exact (H c Hc).
Qed.

(** A check over the sub-scores holds of the factors of every result
    whose impact sub-score is a number. *)
Lemma factors_checked (P : float -> float -> float -> float -> bool)
    (t : Task) (k : nat) :
  inheritedName (category t) = false ->
  forallFactors P = true ->
  let f := factors (fst (calculateUrgencyScore clock dateTime t k)) in
  P (deadline f) (impact f) (dependency f) (complexity f) = true.
Proof.
  intros N H. cbv zeta. rewrite calculateUrgencyScore_eq.
  cbn [fst factors deadline impact dependency complexity].
  apply (forallFactors_spec P H).
  - apply getDeadlineScore_values.
  - apply getImpactScore_values, N.
  - apply getDependencyScore_values.
  - apply getComplexityScore_values.
Qed.

Lemma urgencyScore_weightedSum (t : Task) (k : nat) :
  urgencyScore (fst (calculateUrgencyScore clock dateTime t k)) =
  weightedSum (factors (fst (calculateUrgencyScore clock dateTime t k))).
Proof. rewrite calculateUrgencyScore_eq. reflexivity. Qed.

Lemma weightedSum_eta (f : UrgencyFactors) :
  weightedSum f =
  weightedSum (mkFactors (deadline f) (impact f) (dependency f) (complexity f)).
Proof. destruct f; reflexivity. Qed.

(** X1: the urgency score of a task whose category is not the name of a
    member that objects inherit lies between 1.9999999999999998 and
    8.2000000000000011, whatever the time; the two bounds are the scores of
    a bare admin task and of an overdue exhibition task of 20 hours.  The
    score of a task whose category is such a name is NaN, and lies in no
    range. *)
Theorem score_range (t : Task) (k : nat) :
  let s := urgencyScore (fst (calculateUrgencyScore clock dateTime t k)) in
  (~ In (category t) objectPrototypeNames ->
   (1.9999999999999998 <=? s)%float = true /\
   (s <=? 8.2000000000000011)%float = true) /\
  (In (category t) objectPrototypeNames ->
   PrimFloat.is_nan s = true /\
   (1.9999999999999998 <=? s)%float = false /\
   (s <=? 8.2000000000000011)%float = false) /\
  urgencyScore (fst (calculateUrgencyScore exampleClock exampleDateTime adminBare 0)) =
    1.9999999999999998%float /\
  urgencyScore (fst (calculateUrgencyScore exampleClock exampleDateTime
                       overdueBigExhibition 0)) = 8.2000000000000011%float.
Proof.
  cbv zeta. split; [|split; [|split; vm_compute; reflexivity]].
  - intros N. apply inheritedName_not_In in N.
    rewrite urgencyScore_weightedSum, weightedSum_eta.
    apply andb_true_iff.
    apply (factors_checked
             (fun d i p c =>
                (1.9999999999999998 <=? weightedSum (mkFactors d i p c))%float &&
                (weightedSum (mkFactors d i p c) <=? 8.2000000000000011)%float)
             t k N).
    vm_compute. reflexivity.
  - intros I. apply inheritedName_In in I.
    destruct (urgencyScore_inherited clock dateTime t k I) as [_ ->].
    repeat split; reflexivity.
Qed.

Lemma deadlineRule_ten (days : option float) :
  (deadlineRule days =? 10)%float = true <->
  exists d, days = Some d /\ (d <? 0)%float = true.
Proof.
  split.
  - destruct days as [d|]; simpl; [|intros E; discriminate].
    destruct (d <? 0)%float eqn:N; [eauto|].
    repeat match goal with
           | |- context [if ?b then _ else _] => destruct b
           end; intros E; vm_compute in E; discriminate.
  - intros (d & -> & N). simpl. rewrite N. reflexivity.
Qed.

Lemma impactRule_eight (t : Task) :
  (impactRule t =? 8)%float = true <->
  category t = "exhibition" /\
  exists h, estimated_hours t = Some h /\ JS.gt h 8 = true.
Proof.
  split.
  - unfold impactRule, effortBonus, categoryBaseRule.
    destruct (String.eqb_spec (category t) "exhibition") as [C|C].
    + destruct (estimated_hours t) as [h|];
        [destruct (JS.truthy h), (JS.gt h 8) eqn:G, (JS.gt h 4)|];
        intros E; try (vm_compute in E; discriminate); eauto.
    + destruct (estimated_hours t) as [h|];
        [destruct (JS.truthy h), (JS.gt h 8), (JS.gt h 4)|];
        repeat destruct (String.eqb _ _);
        intros E; vm_compute in E; discriminate.
  - intros (C & h & E & G). unfold impactRule, effortBonus, categoryBaseRule.
    rewrite C, E, G, (gt_truthy 8 h eq_refl G). reflexivity.
Qed.

(** X2: the urgent tier (a score of 8 or more) is reached exactly by the
    exhibition tasks that are overdue and estimated above 8 hours; these
    are the only results the dashboard marks [priority-urgent] and colours
    red. *)
Theorem urgent_tier_iff (t : Task) (k : nat) :
  let s := urgencyScore (fst (calculateUrgencyScore clock dateTime t k)) in
  (JS.ge s 8 = true <->
   (exists d, daysRemaining clock dateTime (due_date t) k = Some d /\
              (d <? 0)%float = true) /\
   category t = "exhibition" /\
   exists h, estimated_hours t = Some h /\ JS.gt h 8 = true) /\
  (JS.ge s 8 = true <-> Dashboard.urgencyClass s = "priority-urgent") /\
  (JS.ge s 8 = true <-> border (getPriorityColor s) = "#ef4444").
Proof.
  cbv zeta. split; [|split].
  - split.
    + intros G.
      destruct (inheritedName (category t)) eqn:O.
      { destruct (urgencyScore_inherited clock dateTime t k O) as [_ E].
        rewrite E in G. discriminate. }
      pose proof (factors_checked
        (fun d i p c =>
           implb (JS.ge (weightedSum (mkFactors d i p c)) 8)
                 ((d =? 10)%float && (i =? 8)%float)) t k O eq_refl) as F.
      cbv beta zeta in F.
      rewrite <- weightedSum_eta, <- urgencyScore_weightedSum, G in F.
      apply andb_true_iff in F as [Fd Fi].
      rewrite calculateUrgencyScore_eq in Fd, Fi. cbn [fst factors deadline impact] in Fd, Fi.
      rewrite getDeadlineScore_rule in Fd. rewrite (getImpactScore_rule _ O) in Fi.
      apply deadlineRule_ten in Fd. apply impactRule_eight in Fi. tauto.
    + intros ((d & D & N) & C & h & E & G).
      assert (O : inheritedName (category t) = false) by (rewrite C; reflexivity).
      rewrite calculateUrgencyScore_eq. cbn [fst urgencyScore].
      rewrite getDeadlineScore_rule, D, (getImpactScore_rule _ O).
      assert (I : impactRule t = 8%float).
      { unfold impactRule, effortBonus, categoryBaseRule.
        rewrite C, E, G, (gt_truthy 8 h eq_refl G). reflexivity. }
      rewrite I. unfold getDependencyScore. rewrite C, E.
      unfold getComplexityScore. rewrite (gt_truthy 8 h eq_refl G), G.
      simpl. rewrite N. destruct (JS.gt h 16); reflexivity.
  - generalize (urgencyScore (fst (calculateUrgencyScore clock dateTime t k))).
    intros s. unfold Dashboard.urgencyClass.
    destruct (JS.ge s 8); split; try reflexivity; discriminate.
  - generalize (urgencyScore (fst (calculateUrgencyScore clock dateTime t k))).
    intros s. unfold getPriorityColor.
    destruct (JS.ge s 8); [split; reflexivity|].
    split; [discriminate|]. destruct (JS.ge s 6), (JS.ge s 4); discriminate.
Qed.

Lemma deadlineRule_far (days : option float) :
  days = None \/ (exists d, days = Some d /\ (7 <? d)%float = true) ->
  (deadlineRule days <=? 4)%float = true.
Proof.
  intros [->|(d & -> & F)]; [reflexivity|]. simpl.
  rewrite (above_not_ltb 0 7 d eq_refl (ltb_leb _ _ F)).
  rewrite (above_not_leb 1 7 d eq_refl F), (above_not_leb 3 7 d eq_refl F),
    (above_not_leb 7 7 d eq_refl F).
  destruct (d <=? 14)%float, (d <=? 30)%float; reflexivity.
Qed.

(** X3: a task with no due date, or due more than 7 days ahead, is never
    in the important or urgent tier: its score stays below 6. *)
Theorem far_deadline_not_important (t : Task) (k : nat) :
  daysRemaining clock dateTime (due_date t) k = None \/
  (exists d, daysRemaining clock dateTime (due_date t) k = Some d /\
             (7 <? d)%float = true) ->
  let s := urgencyScore (fst (calculateUrgencyScore clock dateTime t k)) in
  JS.ge s 6 = false /\ (tierOf s = Normal \/ tierOf s = Low).
Proof.
  intros H. cbv zeta. apply deadlineRule_far in H.
  destruct (inheritedName (category t)) eqn:O.
  { destruct (urgencyScore_inherited clock dateTime t k O) as [_ ->].
    split; [reflexivity | right; reflexivity]. }
  pose proof (factors_checked
    (fun d i p c =>
       implb (d <=? 4)%float
             (negb (JS.ge (weightedSum (mkFactors d i p c)) 6))) t k O eq_refl) as F.
  cbv beta zeta in F.
  rewrite <- weightedSum_eta, <- urgencyScore_weightedSum in F.
  rewrite calculateUrgencyScore_eq in F at 1. cbn [fst factors deadline] in F.
  rewrite getDeadlineScore_rule, H in F. simpl in F.
  apply negb_true_iff in F.
  assert (G8 : JS.ge (urgencyScore (fst (calculateUrgencyScore clock dateTime t k))) 8
               = false).
  { destruct (JS.ge _ 8) eqn:G; [|reflexivity].
    unfold JS.ge in *. pose proof (leb_trans 6 8 _ eq_refl G). congruence. }
  split; [exact F|]. unfold tierOf. rewrite G8, F.
  destruct (JS.ge _ 4); auto.
Qed.

Lemma someReason_tags (f : UrgencyFactors) :
  someReason (deadline f) (impact f) (dependency f) (complexity f) = true ->
  reasonTags f <> [].
Proof.
  unfold someReason, reasonTags.
  destruct (JS.ge (deadline f) 8), (JS.ge (impact f) 7),
    (JS.ge (dependency f) 5), (JS.ge (complexity f) 6);
    simpl; intros H; discriminate.
Qed.

Lemma reasonTags_join (f : UrgencyFactors) :
  reasonTags f <> [] -> JS.join ", " (reasonTags f) <> EmptyString.
Proof.
  unfold reasonTags.
  destruct (JS.ge (deadline f) 8), (JS.ge (impact f) 7),
    (JS.ge (dependency f) 5), (JS.ge (complexity f) 6);
    simpl; intros H; try congruence; discriminate.
Qed.

Lemma append_inv_head (p a b : string) : p +:+ a = p +:+ b -> a = b.
Proof.
  induction p as [|c p IH]; simpl; [auto|]. intros [= H]. auto.
Qed.

(** The text of [generateRecommendation], tier by tier. *)
Lemma generateRecommendation_tier (f : UrgencyFactors) (score : float) :
  generateRecommendation f score =
  match tierOf score with
  | Urgent => "🚨 긴급: " +:+ JS.join ", " (reasonTags f)
  | Important => "⚠️ 중요: " +:+ JS.join ", " (reasonTags f)
  | Normal => "📌 보통: " +:+ JS.orString (JS.join ", " (reasonTags f)) "일반 우선순위"
  | Low => "📋 낮음: 여유있게 처리 가능"
  end.
Proof.
  unfold generateRecommendation, tierOf, reasonTags.
  destruct (JS.ge score 8), (JS.ge score 6), (JS.ge score 4); reflexivity.
Qed.

(** X4: the recommendation of a scored task always names its grounds: in
    the urgent and important tiers (score 6 or more) at least one reason
    fired, so the text is never the bare heading of a tier. *)
Theorem recommendation_has_reason (t : Task) (k : nat) :
  let r := fst (calculateUrgencyScore clock dateTime t k) in
  (JS.ge (urgencyScore r) 6 = true -> reasonTags (factors r) <> []) /\
  recommendation r <> "🚨 긴급: " /\
  recommendation r <> "⚠️ 중요: ".
Proof.
  cbv zeta.
  assert (R : JS.ge (urgencyScore (fst (calculateUrgencyScore clock dateTime t k))) 6
              = true ->
              reasonTags (factors (fst (calculateUrgencyScore clock dateTime t k))) <> []).
  { intros G.
    destruct (inheritedName (category t)) eqn:O.
    { destruct (urgencyScore_inherited clock dateTime t k O) as [_ E].
      rewrite E in G. discriminate. }
    apply someReason_tags.
    pose proof (factors_checked
      (fun d i p c =>
         implb (JS.ge (weightedSum (mkFactors d i p c)) 6) (someReason d i p c))
      t k O eq_refl) as F.
    cbv beta zeta in F.
    rewrite <- weightedSum_eta, <- urgencyScore_weightedSum, G in F. exact F. }
  split; [exact R|].
  assert (E : recommendation (fst (calculateUrgencyScore clock dateTime t k)) =
              generateRecommendation
                (factors (fst (calculateUrgencyScore clock dateTime t k)))
                (urgencyScore (fst (calculateUrgencyScore clock dateTime t k))))
    by (rewrite calculateUrgencyScore_eq; reflexivity).
  rewrite E, generateRecommendation_tier. clear E.
  revert R.
  generalize (factors (fst (calculateUrgencyScore clock dateTime t k))).
  generalize (urgencyScore (fst (calculateUrgencyScore clock dateTime t k))).
  intros s f R. unfold tierOf.
  destruct (JS.ge s 8) eqn:G8.
  { assert (G6 : JS.ge s 6 = true)
      by (unfold JS.ge in *; exact (leb_trans 6 8 s eq_refl G8)).
    pose proof (reasonTags_join f (R G6)) as J.
    split; [|discriminate].
    intros H. apply J. apply (append_inv_head "🚨 긴급: "). exact H. }
  destruct (JS.ge s 6) eqn:G6.
  { pose proof (reasonTags_join f (R eq_refl)) as J.
    split; [discriminate|].
    intros H. apply J. apply (append_inv_head "⚠️ 중요: "). exact H. }
  destruct (JS.ge s 4); split; discriminate.
Qed.

End ScoreProperties.

(** ** The ranking: the best three, ties, and the tasks returned *)

Section RankingProperties.

Variable clock : nat -> float.
Variable dateTime : string -> float.

Lemma scoredAs_task (t : Task) (r : PriorityCalculationResult) :
  scoredAs clock dateTime t r -> task r = t.
Proof. intros [j ->]. rewrite calculateUrgencyScore_eq. reflexivity. Qed.

Lemma scored_tasks (ts : list Task) (rs : list PriorityCalculationResult) :
  Forall2 (scoredAs clock dateTime) ts rs -> map task rs = ts.
Proof.
  induction 1 as [|t r ts rs H _ IH]; simpl; [reflexivity|].
  now rewrite (scoredAs_task _ _ H), IH.
Qed.

Lemma scored_members (ts : list Task) (rs : list PriorityCalculationResult) :
  Forall2 (scoredAs clock dateTime) ts rs ->
  Forall (fun r => In (task r) ts /\ scoredAs clock dateTime (task r) r) rs.
Proof.
  induction 1 as [|t r ts rs H _ IH]; constructor.
  - rewrite (scoredAs_task _ _ H). split; [now left | exact H].
  - eapply Forall_impl; [exact IH|]. intros r' [I S]. split; [now right | exact S].
Qed.

Lemma descending_cross (l1 l2 : list PriorityCalculationResult) :
  descending (l1 ++ l2) ->
  forall r r', In r l1 -> In r' l2 -> notBelow r r'.
Proof.
  unfold descending. induction l1 as [|a l1 IH]; simpl; intros S r r' H1 H2.
  - contradiction.
  - inversion S as [|? ? S' F]; subst. destruct H1 as [->|H1].
    + rewrite List.Forall_forall in F. apply F. apply in_or_app. now right.
    + now apply (IH S').
Qed.

(** X9: when no eligible task has for category the name of a member that
    objects inherit, the results returned are the best: every scored
    eligible task that is left out has a score not above that of each task
    returned. *)
Theorem top_three_dominate (ts : list Task) (k : nat) :
  ownCategories ts ->
  let rs := fst (calculateTopPriorityTasks clock dateTime ts k) in
  exists scored rest,
    Forall2 (scoredAs clock dateTime) (List.filter isEligible ts) scored /\
    Permutation (rs ++ rest) scored /\
    forall r r', In r rs -> In r' rest -> notBelow r r'.
Proof.
  intros N. cbv zeta. destruct (calculateTopPriorityTasks_eq clock dateTime ts k)
    as (scored & F & ->).
  exists scored, (drop 3 (JS.Array_sort byUrgencyDesc scored)).
  split; [exact F|]. rewrite take_drop. split; [apply Array_sort_perm|].
  apply descending_cross. rewrite take_drop.
  exact (ranking_descending clock dateTime ts scored N F).
Qed.

Lemma comparatorStrict_table : comparatorStrictOn scoreTable = true.
Proof. vm_compute. reflexivity. Qed.

Lemma tie_not_moved (s : float) (a b : PriorityCalculationResult) :
  tabled a -> tabled b ->
  JS.gt (byUrgencyDesc a b) 0 = true ->
  hasScore s a = true -> hasScore s b = false.
Proof.
  unfold tabled, hasScore, byUrgencyDesc. intros Ha Hb G Pa.
  destruct (urgencyScore b =? s)%float eqn:Pb; [|reflexivity].
  pose proof comparatorStrict_table as T. unfold comparatorStrictOn in T.
  rewrite forallb_forall in T. specialize (T _ Ha).
  rewrite forallb_forall in T. specialize (T _ Hb).
  rewrite G in T. simpl in T. apply negb_true_iff in T.
  apply eqb_leb in Pa as [_ Pa]. apply eqb_leb in Pb as [Pb _].
  pose proof (leb_trans _ _ _ Pb Pa). congruence.
Qed.

Lemma insertBy_filter (s : float) (a : PriorityCalculationResult)
    (l : list PriorityCalculationResult) :
  tabled a -> Forall tabled l ->
  List.filter (hasScore s) (JS.insertBy byUrgencyDesc a l) =
  List.filter (hasScore s) (a :: l).
Proof.
  intros Ha Hl. induction Hl as [|b l Hb Hl IH]; [reflexivity|].
  cbn [JS.insertBy]. destruct (JS.gt (byUrgencyDesc a b) 0) eqn:G; [|reflexivity].
  cbn [List.filter] in *. rewrite IH.
  destruct (hasScore s a) eqn:Pa; [|reflexivity].
  now rewrite (tie_not_moved s a b Ha Hb G Pa).
Qed.

Lemma Array_sort_filter (s : float) (l : list PriorityCalculationResult) :
  Forall tabled l ->
  List.filter (hasScore s) (JS.Array_sort byUrgencyDesc l) =
  List.filter (hasScore s) l.
Proof.
  intros Hl. induction Hl as [|a l Ha Hl IH]; [reflexivity|].
  change (JS.Array_sort byUrgencyDesc (a :: l))
    with (JS.insertBy byUrgencyDesc a (JS.Array_sort byUrgencyDesc l)).
  rewrite insertBy_filter; [|exact Ha|].
  - cbn [List.filter]. now rewrite IH.
  - eapply Permutation_Forall; [symmetry; apply Array_sort_perm|exact Hl].
Qed.

(** X10: when no eligible task has for category the name of a member
    that objects inherit, ties keep the order of submission: in the
    descending ranking the results are cut from, the scored tasks whose
    scores compare equal to any given score stand in the order in which the
    eligible tasks were given. *)
Theorem ranking_stable (ts : list Task) (k : nat) :
  ownCategories ts ->
  let rs := fst (calculateTopPriorityTasks clock dateTime ts k) in
  exists scored ranking,
    Forall2 (scoredAs clock dateTime) (List.filter isEligible ts) scored /\
    Permutation ranking scored /\ descending ranking /\
    rs = take 3 ranking /\
    forall s, List.filter (hasScore s) ranking = List.filter (hasScore s) scored.
Proof.
  intros N. cbv zeta. destruct (calculateTopPriorityTasks_eq clock dateTime ts k)
    as (scored & F & ->).
  pose proof (scored_tabled _ _ _ _ N F) as T.
  exists scored, (JS.Array_sort byUrgencyDesc scored).
  split; [exact F|]. split; [apply Array_sort_perm|].
  split; [now apply Array_sort_descending|]. split; [reflexivity|].
  intros s. now apply Array_sort_filter.
Qed.

Lemma NoDup_take {A} (n : nat) (l : list A) : List.NoDup l -> List.NoDup (take n l).
Proof.
  intros H. rewrite <- (take_drop n l) in H.
  exact (List.NoDup_app_remove_r _ _ H).
Qed.

(** The tasks of the ranking's results, with what is known of each. *)
Lemma top_results_members (ts : list Task) (k : nat) :
  Forall (fun r => In (task r) ts /\ isEligible (task r) = true /\
                   scoredAs clock dateTime (task r) r)
         (fst (calculateTopPriorityTasks clock dateTime ts k)).
Proof.
  destruct (calculateTopPriorityTasks_eq clock dateTime ts k)
    as (scored & F & ->).
  apply Forall_take.
  eapply Permutation_Forall; [symmetry; apply Array_sort_perm|].
  eapply Forall_impl; [exact (scored_members _ _ F)|].
  intros r [I S]. apply filter_In in I as [I E]. auto.
Qed.

Lemma top_results_NoDup (ts : list Task) (k : nat) :
  List.NoDup ts ->
  List.NoDup (map task (fst (calculateTopPriorityTasks clock dateTime ts k))).
Proof.
  intros N. destruct (calculateTopPriorityTasks_eq clock dateTime ts k)
    as (scored & F & ->).
  rewrite <- List.firstn_map. apply NoDup_take.
  eapply Permutation_NoDup.
  - symmetry. apply Permutation_map. apply Array_sort_perm.
  - rewrite (scored_tasks _ _ F). now apply List.NoDup_filter.
Qed.

(** X11: the tasks of the results are eligible tasks of the list given,
    each result carrying the score of its own task; when the tasks given
    are pairwise distinct, no task is returned twice. *)
Theorem top_tasks_from_input (ts : list Task) (k : nat) :
  let rs := fst (calculateTopPriorityTasks clock dateTime ts k) in
  Forall (fun r => In (task r) ts /\ isEligible (task r) = true /\
                   scoredAs clock dateTime (task r) r) rs /\
  (List.NoDup ts -> List.NoDup (map task rs)).
Proof.
  cbv zeta. split; [apply top_results_members | apply top_results_NoDup].
Qed.

End RankingProperties.

(** ** The schedule: what the slots hold *)

Section ScheduleProperties.

Variable clock : nat -> float.
Variable dateTime : string -> float.
Variable isoDate : float -> string.

Lemma distribute_labels (ts : list Task) (m a e : ScheduleSlot) :
  let '(m', a', e') := foldl distribute (m, a, e) ts in
  (time m' = time m /\ energy m' = energy m) /\
  (time a' = time a /\ energy a' = energy a) /\
  (time e' = time e /\ energy e' = energy e).
Proof.
  revert m a e. induction ts as [|t ts IH]; intros m a e.
  - simpl. auto.
  - change (foldl distribute (m, a, e) (t :: ts))
      with (foldl distribute (distribute (m, a, e) t) ts).
    destruct (distribute_cases m a e t)
      as [(_ & _ & _ & ->)|[(_ & _ & _ & ->)|(_ & _ & _ & ->)]].
    + exact (IH (push m t) a e).
    + exact (IH m (push a t) e).
    + exact (IH m a (push e t)).
Qed.

(** The schedule unfolded: the slots are the balanced slots of the
    distribution, and the total is summed over them. *)
Lemma generateDailySchedule_eq (ts : list Task) (k : nat) :
  let s := fst (generateDailySchedule clock dateTime isoDate ts k) in
  let top := map task (fst (calculateTopPriorityTasks clock dateTime ts (S k))) in
  exists m a e,
    foldl distribute emptySlots top = (m, a, e) /\
    date s = isoDate (clock k) /\
    morning s = balanceSlot m /\ afternoon s = balanceSlot a /\
    evening s = balanceSlot e /\
    totalEstimatedHours s = sumHours (scheduled s) /\
    aiRecommendation s =
      generateScheduleRecommendation (balanceSlot m, balanceSlot a, balanceSlot e)
        (totalEstimatedHours s).
Proof.
  cbv zeta.
  unfold generateDailySchedule, mbind, clocked_bind, mret, clocked_ret, readClock.
  pose proof (calculateTopPriorityTasks_length clock dateTime ts (S k)) as L.
  destruct (calculateTopPriorityTasks clock dateTime ts (S k)) as [rs k'].
  cbn [fst snd] in *. unfold JS.slice0. rewrite (take_ge rs 10) by lia.
  unfold categorizeTasksByEnergy.
  destruct (foldl distribute emptySlots (map task rs)) as [[m a] e].
  exists m, a, e. cbn. auto 10.
Qed.

(** X12: the three slots always carry their fixed labels, and a task is
    only ever in the slot its own profile selects: the morning slot holds
    exhibition or research tasks above 2 hours, the afternoon slot
    education or publication tasks, the evening slot none of these.  A
    task that balancing removes is not moved to another slot. *)
Theorem slot_contents (ts : list Task) (k : nat) :
  let s := fst (generateDailySchedule clock dateTime isoDate ts k) in
  (time (morning s) = "09:00-12:00" /\ energy (morning s) = high /\
   time (afternoon s) = "13:00-17:00" /\ energy (afternoon s) = medium /\
   time (evening s) = "17:00-18:00" /\ energy (evening s) = low) /\
  (forall t, In t (tasks (morning s)) ->
     (category t = "exhibition" \/ category t = "research") /\
     JS.gt (hoursOf t) 2 = true) /\
  (forall t, In t (tasks (afternoon s)) ->
     category t = "education" \/ category t = "publication") /\
  (forall t, In t (tasks (evening s)) ->
     goesMorning t = false /\
     category t <> "education" /\ category t <> "publication").
Proof.
  cbv zeta. split.
  - destruct (generateDailySchedule_eq ts k)
      as (m & a & e & D & _ & -> & -> & -> & _).
    pose proof (distribute_labels
      (map task (fst (calculateTopPriorityTasks clock dateTime ts (S k))))
      (fst (fst emptySlots)) (snd (fst emptySlots)) (snd emptySlots)) as Lb.
    change (fst (fst emptySlots), snd (fst emptySlots), snd emptySlots)
      with emptySlots in Lb.
    rewrite D in Lb. cbn in Lb |- *. intuition congruence.
  - destruct (generateDailySchedule_slots clock dateTime isoDate ts k)
      as (_ & m & a & e & Em & Ea & Ee & -> & -> & ->).
    split; [|split]; intros t H.
    + apply (balancedFrom_In _ _ _ (balanceSlot_balanced m)) in H.
      rewrite Em in H. apply filter_In in H as [_ H].
      unfold goesMorning, isCreative, isComplex in H.
      apply andb_true_iff in H as [C X]. split; [|exact X].
      apply orb_true_iff in C. rewrite !String.eqb_eq in C. exact C.
    + apply (balancedFrom_In _ _ _ (balanceSlot_balanced a)) in H.
      rewrite Ea in H. apply filter_In in H as [_ H].
      unfold goesAfternoon in H. apply andb_true_iff in H as [_ C].
      apply orb_true_iff in C. rewrite !String.eqb_eq in C. exact C.
    + apply (balancedFrom_In _ _ _ (balanceSlot_balanced e)) in H.
      rewrite Ee in H. apply filter_In in H as [_ H].
      unfold goesEvening in H. apply andb_true_iff in H as [M C].
      apply negb_true_iff in M. apply negb_true_iff, orb_false_iff in C as [C1 C2].
      rewrite String.eqb_neq in C1, C2. auto.
Qed.

Lemma slot_partition_perm (l : list Task) :
  Permutation (List.filter goesMorning l ++ List.filter goesAfternoon l ++
               List.filter goesEvening l) l.
Proof.
  induction l as [|t l IH]; [reflexivity|]. cbn [List.filter].
  destruct (distribute_cases (fst (fst emptySlots)) (snd (fst emptySlots))
              (snd emptySlots) t)
    as [(-> & -> & -> & _)|[(-> & -> & -> & _)|(-> & -> & -> & _)]].
  - simpl. now constructor.
  - simpl. rewrite <- Permutation_middle. now constructor.
  - simpl. rewrite app_assoc, <- Permutation_middle, <- app_assoc. now constructor.
Qed.

Lemma balancedFrom_sublist (before : list Task) (slot : ScheduleSlot) :
  balancedFrom before slot -> sublist (tasks slot) before.
Proof.
  intros (dropped & -> & _). now apply sublist_inserts_r.
Qed.

Lemma scheduled_sublist (ts : list Task) (k : nat) :
  let s := fst (generateDailySchedule clock dateTime isoDate ts k) in
  let top := map task (fst (calculateTopPriorityTasks clock dateTime ts (S k))) in
  sublist (scheduled s)
    (List.filter goesMorning top ++ List.filter goesAfternoon top ++
     List.filter goesEvening top).
Proof.
  cbv zeta. destruct (generateDailySchedule_slots clock dateTime isoDate ts k)
    as (_ & m & a & e & <- & <- & <- & Hm & Ha & He).
  unfold scheduled. rewrite Hm, Ha, He.
  repeat apply sublist_app; apply balancedFrom_sublist, balanceSlot_balanced.
Qed.

(** X14: every scheduled task is the task of one of the three results of
    the ranking, hence an eligible task of the list given; when the tasks
    given are pairwise distinct, no task is scheduled twice, so the slots
    are disjoint. *)
Theorem scheduled_from_ranking (ts : list Task) (k : nat) :
  let s := fst (generateDailySchedule clock dateTime isoDate ts k) in
  let rs := fst (calculateTopPriorityTasks clock dateTime ts (S k)) in
  (forall t, In t (scheduled s) ->
     In t (map task rs) /\ In t ts /\ isEligible t = true) /\
  (List.NoDup ts -> List.NoDup (scheduled s)).
Proof.
  cbv zeta. pose proof (scheduled_sublist ts k) as Sub. cbv zeta in Sub.
  pose proof (slot_partition_perm
    (map task (fst (calculateTopPriorityTasks clock dateTime ts (S k))))) as P.
  split.
  - intros t H. apply list_elem_of_In in H.
    assert (I : In t (map task (fst (calculateTopPriorityTasks clock dateTime ts (S k))))).
    { apply list_elem_of_In. rewrite <- P. exact (elem_of_sublist _ _ _ H Sub). }
    split; [exact I|].
    apply in_map_iff in I as (r & <- & I).
    pose proof (top_results_members clock dateTime ts (S k)) as M.
    rewrite List.Forall_forall in M. destruct (M r I) as (A & B & _). auto.
  - intros N. apply NoDup_ListNoDup. eapply sublist_NoDup; [|exact Sub].
    rewrite P. apply NoDup_ListNoDup.
    now apply top_results_NoDup.
Qed.

(** X15: when no task is eligible (none given, or none pending or in
    progress) the schedule has three empty slots and a total of 0, and the
    advice is the note on a light day followed by the hint on the empty
    morning. *)
Theorem empty_schedule (ts : list Task) (k : nat) :
  List.filter isEligible ts = [] ->
  let s := fst (generateDailySchedule clock dateTime isoDate ts k) in
  fst (calculateTopPriorityTasks clock dateTime ts k) = [] /\
  tasks (morning s) = [] /\ tasks (afternoon s) = [] /\ tasks (evening s) = [] /\
  totalEstimatedHours s = 0%float /\
  aiRecommendation s =
    "✅ 여유로운 하루입니다. 미뤄뒀던 연구나 학습에 시간을 투자하세요." +:+
    String "010"%char
      "💡 아침 시간에 창의적인 작업을 배치하면 생산성이 높아집니다.".
Proof.
  intros E. cbv zeta.
  assert (R : forall j, fst (calculateTopPriorityTasks clock dateTime ts j) = []).
  { intros j. destruct (calculateTopPriorityTasks_eq clock dateTime ts j)
      as (scored & F & ->).
    rewrite E in F. inversion F. reflexivity. }
  split; [apply R|].
  unfold generateDailySchedule, mbind, clocked_bind, mret, clocked_ret, readClock.
  specialize (R (S k)).
  destruct (calculateTopPriorityTasks clock dateTime ts (S k)) as [rs k'].
  cbn [fst] in R. subst rs. cbn. repeat split; reflexivity.
Qed.


Lemma trimLoop_within (fuel : nat) (total : float) (l : list Task) :
  JS.gt total maxHoursPerSlot = false \/ (length l <= 1)%nat ->
  trimLoop fuel total l = (total, l).
Proof.
  intros H. destruct fuel as [|fuel]; [reflexivity|]. simpl.
  destruct H as [->|H]; [reflexivity|].
  apply Nat.ltb_ge in H. rewrite H. now rewrite andb_false_r.
Qed.

(** X17: balancing leaves alone a slot that is within the cap: when the
    summed hours of each slot's candidates are not above 3.0, or the slot
    has at most one candidate, every task of the three results is
    scheduled, slot by slot in ranking order. *)
Theorem within_cap_nothing_dropped (ts : list Task) (k : nat) :
  let s := fst (generateDailySchedule clock dateTime isoDate ts k) in
  let top := map task (fst (calculateTopPriorityTasks clock dateTime ts (S k))) in
  (forall P, In P [goesMorning; goesAfternoon; goesEvening] ->
     JS.gt (sumHours (List.filter P top)) maxHoursPerSlot = false \/
     (length (List.filter P top) <= 1)%nat) ->
  tasks (morning s) = List.filter goesMorning top /\
  tasks (afternoon s) = List.filter goesAfternoon top /\
  tasks (evening s) = List.filter goesEvening top /\
  Permutation (scheduled s) top.
Proof.
  cbv zeta. intros H.
  destruct (generateDailySchedule_slots clock dateTime isoDate ts k)
    as (_ & m & a & e & Em & Ea & Ee & Hm & Ha & He).
  assert (K : forall b P, In P [goesMorning; goesAfternoon; goesEvening] ->
    tasks b = List.filter P
      (map task (fst (calculateTopPriorityTasks clock dateTime ts (S k)))) ->
    tasks (balanceSlot b) = tasks b).
  { intros b P HP Eb. unfold balanceSlot. cbn [tasks].
    rewrite trimLoop_within; [reflexivity|]. rewrite Eb. now apply H. }
  assert (Km := K m goesMorning (or_introl eq_refl) Em).
  assert (Ka := K a goesAfternoon (or_intror (or_introl eq_refl)) Ea).
  assert (Ke := K e goesEvening (or_intror (or_intror (or_introl eq_refl))) Ee).
  unfold scheduled. rewrite Hm, Ha, He, Km, Ka, Ke, Em, Ea, Ee.
  repeat split. apply slot_partition_perm.
Qed.

Lemma filter_sublist (P : Task -> bool) (l : list Task) :
  sublist (List.filter P l) l.
Proof.
  induction l as [|t l IH]; simpl; [constructor|].
  destruct (P t); now constructor.
Qed.

(** X22: within each slot the tasks stand in the order of the ranking:
    each slot's list is a sublist of the tasks of the ranking's results.
    That order is most urgent first when no eligible task has for category
    the name of a member that objects inherit. *)
Theorem slots_in_ranking_order (ts : list Task) (k : nat) :
  let s := fst (generateDailySchedule clock dateTime isoDate ts k) in
  let rs := fst (calculateTopPriorityTasks clock dateTime ts (S k)) in
  (ownCategories ts -> descending rs) /\
  sublist (tasks (morning s)) (map task rs) /\
  sublist (tasks (afternoon s)) (map task rs) /\
  sublist (tasks (evening s)) (map task rs).
Proof.
  cbv zeta. split.
  - intros N. destruct (calculateTopPriorityTasks_eq clock dateTime ts (S k))
      as (scored & F & ->).
    apply descending_take.
    exact (ranking_descending clock dateTime ts scored N F).
  - destruct (generateDailySchedule_slots clock dateTime isoDate ts k)
      as (_ & m & a & e & Em & Ea & Ee & -> & -> & ->).
    repeat split.
    + etrans; [apply balancedFrom_sublist, balanceSlot_balanced|].
      rewrite Em. apply filter_sublist.
    + etrans; [apply balancedFrom_sublist, balanceSlot_balanced|].
      rewrite Ea. apply filter_sublist.
    + etrans; [apply balancedFrom_sublist, balanceSlot_balanced|].
      rewrite Ee. apply filter_sublist.
Qed.

(** X23: tasks that are not eligible have no influence: two lists with
    the same eligible tasks in the same order get the same ranking and the
    same schedule at the same readings of the clock. *)
Theorem ineligible_tasks_ignored (ts us : list Task) (k : nat) :
  List.filter isEligible ts = List.filter isEligible us ->
  calculateTopPriorityTasks clock dateTime ts k =
  calculateTopPriorityTasks clock dateTime us k /\
  generateDailySchedule clock dateTime isoDate ts k =
  generateDailySchedule clock dateTime isoDate us k.
Proof.
  intros E.
  assert (R : forall j, calculateTopPriorityTasks clock dateTime ts j =
                        calculateTopPriorityTasks clock dateTime us j).
  { intros j. unfold calculateTopPriorityTasks. now rewrite E. }
  split; [apply R|].
  unfold generateDailySchedule, mbind, clocked_bind, mret, clocked_ret, readClock.
  now rewrite (R (S k)).
Qed.

End ScheduleProperties.

(** ** The time suggested for one task *)

Section SuggestionProperties.

Variable clock : nat -> float.
Variable getHours : float -> float.

(** X18: [suggestTaskTime] says "now" only inside the working windows:
    from 9 up to 18 o'clock and never from 12 up to 13; from 13 up to 17 it
    says "now" for every task, whatever its profile. *)
Theorem suggest_now_window (t : Task) (k : nat) :
  let h := getHours (clock k) in
  let sug := fst (suggestTaskTime clock getHours t k) in
  (recommendedTime sug = "지금 바로" ->
   JS.ge h 9 = true /\ (h <? 18)%float = true /\
   ((h <? 12)%float = true \/ JS.ge h 13 = true)) /\
  (JS.ge h 13 = true -> (h <? 17)%float = true ->
   recommendedTime sug = "지금 바로").
Proof.
  cbv zeta. unfold suggestTaskTime. run_clocked.
  set (h := getHours (clock k)).
  split.
  - destruct (JS.ge h 9 && (h <? 12)%float && (isCreative t || isComplex t)) eqn:C1.
    { intros _. apply andb_true_iff in C1 as [C1 _].
      apply andb_true_iff in C1 as [G9 L12].
      split; [exact G9|]. split; [|now left].
      exact (ltb_leb_trans h 12 18 L12 eq_refl). }
    destruct (JS.ge h 13 && (h <? 17)%float) eqn:C2.
    { intros _. apply andb_true_iff in C2 as [G13 L17].
      split; [exact (leb_trans 9 13 h eq_refl G13)|].
      split; [exact (ltb_leb_trans h 17 18 L17 eq_refl) | now right]. }
    destruct (JS.ge h 17 && (h <? 18)%float && negb (isCreative t) &&
              negb (isComplex t)) eqn:C3.
    { intros _. apply andb_true_iff in C3 as [C3 _].
      apply andb_true_iff in C3 as [C3 _].
      apply andb_true_iff in C3 as [G17 L18].
      split; [exact (leb_trans 9 17 h eq_refl G17)|].
      split; [exact L18|]. right. exact (leb_trans 13 17 h eq_refl G17). }
    destruct (isCreative t || isComplex t); simpl; intros E; discriminate.
  - intros G13 L17.
    destruct (JS.ge h 9 && (h <? 12)%float && (isCreative t || isComplex t));
      [reflexivity|].
    now rewrite G13, L17.
Qed.

(** X19: the suggestion is one of three times, and the later time fits the
    profile: "afternoon" is only said of a task that is neither creative
    nor complex, "tomorrow 9-12" only of one that is creative or complex;
    a task the planner would put in the morning slot is never sent to the
    afternoon. *)
Theorem suggest_matches_profile (t : Task) (k : nat) :
  let sug := fst (suggestTaskTime clock getHours t k) in
  (recommendedTime sug = "지금 바로" \/
   recommendedTime sug = "내일 오전 9-12시" \/
   recommendedTime sug = "오후 시간대") /\
  (recommendedTime sug = "오후 시간대" ->
   isCreative t = false /\ isComplex t = false) /\
  (recommendedTime sug = "내일 오전 9-12시" ->
   isCreative t || isComplex t = true) /\
  (goesMorning t = true -> recommendedTime sug <> "오후 시간대").
Proof.
  cbv zeta. unfold suggestTaskTime, goesMorning. run_clocked.
  set (h := getHours (clock k)).
  destruct (JS.ge h 9 && (h <? 12)%float && (isCreative t || isComplex t)).
  { simpl. repeat split; auto; intros; discriminate. }
  destruct (JS.ge h 13 && (h <? 17)%float).
  { simpl. repeat split; auto; intros; discriminate. }
  destruct (JS.ge h 17 && (h <? 18)%float && negb (isCreative t) &&
            negb (isComplex t)).
  { simpl. repeat split; auto; intros; discriminate. }
  destruct (isCreative t), (isComplex t); simpl;
    repeat split; auto; intros; discriminate.
Qed.

End SuggestionProperties.

(** ** What the interface shows *)

Section DisplayProperties.

Variable clock : nat -> float.
Variable dateTime : string -> float.
Variable isoDate : float -> string.

Lemma prefix_append (p x : string) : String.prefix p (p +:+ x) = true.
Proof.
  induction p as [|c p IH].
  - change (EmptyString +:+ x) with x. destruct x; reflexivity.
  - change (String c p +:+ x) with (String c (p +:+ x)).
    cbn [String.prefix]. destruct (ascii_dec c c); [exact IH | congruence].
Qed.

Lemma ge_weaken (a b s : float) :
  (a <=? b)%float = true -> JS.ge s a = false -> JS.ge s b = false.
Proof.
  unfold JS.ge. intros Hab H. destruct (b <=? s)%float eqn:E; [|reflexivity].
  pose proof (leb_trans _ _ _ Hab E). congruence.
Qed.

(** X20: the badge of a priority card and the recommendation printed in
    it agree from a score of 4 upwards, where the recommendation begins
    with the icon and the word of the badge; below 4 they disagree: the
    badge reads "보통" (normal) while the recommendation is the text of the
    low tier.  The bare admin task is such a case. *)
Theorem badge_and_recommendation (t : Task) (k : nat) :
  let r := fst (calculateUrgencyScore clock dateTime t k) in
  let s := urgencyScore r in
  (JS.ge s 4 = true ->
   String.prefix
     (Dashboard.urgencyIcon s +:+ " " +:+ Dashboard.urgencyText s +:+ ": ")
     (recommendation r) = true) /\
  (JS.ge s 4 = false ->
   Dashboard.urgencyIcon s = "📌" /\ Dashboard.urgencyText s = "보통" /\
   recommendation r = "📋 낮음: 여유있게 처리 가능") /\
  JS.ge (urgencyScore (fst (calculateUrgencyScore exampleClock exampleDateTime
                              adminBare 0))) 4 = false.
Proof.
  cbv zeta. split; [|split; [|vm_compute; reflexivity]].
  - assert (E : recommendation (fst (calculateUrgencyScore clock dateTime t k)) =
                generateRecommendation
                  (factors (fst (calculateUrgencyScore clock dateTime t k)))
                  (urgencyScore (fst (calculateUrgencyScore clock dateTime t k))))
      by (rewrite calculateUrgencyScore_eq; reflexivity).
    rewrite E, generateRecommendation_tier. clear E.
    generalize (factors (fst (calculateUrgencyScore clock dateTime t k))).
    generalize (urgencyScore (fst (calculateUrgencyScore clock dateTime t k))).
    intros s f G4. unfold tierOf, Dashboard.urgencyIcon, Dashboard.urgencyText.
    rewrite G4.
    destruct (JS.ge s 8); [apply (prefix_append "🚨 긴급: ")|].
    destruct (JS.ge s 6); [apply (prefix_append "⚠️ 중요: ")|].
    apply (prefix_append "📌 보통: ").
  - intros G4.
    pose proof (ge_weaken 4 6 _ eq_refl G4) as G6.
    pose proof (ge_weaken 4 8 _ eq_refl G4) as G8.
    unfold Dashboard.urgencyIcon, Dashboard.urgencyText. rewrite G8, G6.
    split; [reflexivity|]. split; [reflexivity|].
    rewrite calculateUrgencyScore_eq in G4, G6, G8 |- *.
    cbn [fst urgencyScore recommendation] in *.
    rewrite generateRecommendation_tier. unfold tierOf. now rewrite G8, G6, G4.
Qed.

Lemma generateScheduleRecommendation_generic (m a e : ScheduleSlot) (total : float) :
  generateScheduleRecommendation (m, a, e) total =
    "👍 잘 균형잡힌 스케줄입니다. 집중해서 진행하세요!" <->
  JS.gt total 8 = false /\ (total <? 4)%float = false /\
  tasks m <> [] /\ (length (tasks e) <= 2)%nat.
Proof.
  unfold generateScheduleRecommendation.
  destruct (JS.gt total 8) eqn:G, (total <? 4)%float eqn:L,
    (length (tasks m) =? 0)%nat eqn:M, (2 <? length (tasks e))%nat eqn:V;
    simpl; (split; [intros H; try discriminate | intros (H1 & H2 & H3 & H4)]);
    try discriminate;
    try (apply Nat.eqb_eq in M; destruct (tasks m); [congruence | discriminate]);
    try (apply Nat.ltb_lt in V; lia).
  - repeat split; try reflexivity.
    + apply Nat.eqb_neq in M. intros N. rewrite N in M. now apply M.
    + apply Nat.ltb_ge in V. exact V.
  - reflexivity.
Qed.

(** X21: the schedule's advice is the plain "well balanced" message
    exactly when no advisory applies: the total is neither above 8 nor
    below 4 hours, the morning slot is not empty and the evening slot
    holds at most two tasks. *)
Theorem advice_well_balanced_iff (ts : list Task) (k : nat) :
  let s := fst (generateDailySchedule clock dateTime isoDate ts k) in
  aiRecommendation s = "👍 잘 균형잡힌 스케줄입니다. 집중해서 진행하세요!" <->
  JS.gt (totalEstimatedHours s) 8 = false /\
  (totalEstimatedHours s <? 4)%float = false /\
  tasks (morning s) <> [] /\ (length (tasks (evening s)) <= 2)%nat.
Proof.
  cbv zeta. destruct (generateDailySchedule_eq clock dateTime isoDate ts k)
    as (m & a & e & _ & _ & Hm & _ & He & _ & ->).
  rewrite Hm, He. apply generateScheduleRecommendation_generic.
Qed.

End DisplayProperties.

(** ** The further properties on concrete inputs *)

Section FurtherExamples.

Lemma far_deadline_witness :
  JS.ge (urgencyScore (fst (calculateUrgencyScore exampleClock exampleDateTime
                              educationLater 0))) 6 = false /\
  (tierOf (urgencyScore (fst (calculateUrgencyScore exampleClock exampleDateTime
                                educationLater 0))) = Normal \/
   tierOf (urgencyScore (fst (calculateUrgencyScore exampleClock exampleDateTime
                                educationLater 0))) = Low).
Proof.
  apply (far_deadline_not_important exampleClock exampleDateTime educationLater 0).
  right. eexists. split; [reflexivity|]. vm_compute. reflexivity.
Defined.

Lemma complexity_monotone_witness :
  (getComplexityScore (Some 3%float) <=? getComplexityScore (Some 10%float))%float
  = true.
Proof. apply complexity_monotone. vm_compute. reflexivity. Defined.

Lemma impact_monotone_witness :
  (getImpactScore adminThreeHours <=? getImpactScore adminTenHours)%float = true.
Proof.
  apply (impact_monotone_in_hours adminThreeHours adminTenHours 3 10);
    first [reflexivity | vm_compute; reflexivity | simpl; intuition discriminate].
Defined.

Lemma score_range_witness :
  ((1.9999999999999998 <=?
    urgencyScore (fst (calculateUrgencyScore exampleClock exampleDateTime
                         educationLater 0%nat)))%float = true /\
   (urgencyScore (fst (calculateUrgencyScore exampleClock exampleDateTime
                         educationLater 0%nat)) <=? 8.2000000000000011)%float = true) /\
  PrimFloat.is_nan
    (urgencyScore (fst (calculateUrgencyScore exampleClock exampleDateTime
                          inheritedCategory 0))) = true.
Proof.
  split.
  - apply (proj1 (score_range exampleClock exampleDateTime educationLater 0)).
    simpl. intuition discriminate.
  - apply (proj1 (proj2 (score_range exampleClock exampleDateTime inheritedCategory 0))).
    in_list.
Defined.

Lemma top_three_dominate_witness :
  exists scored rest,
    Forall2 (scoredAs exampleClock exampleDateTime)
            (List.filter isEligible fourListedTasks) scored /\
    Permutation
      (fst (calculateTopPriorityTasks exampleClock exampleDateTime fourListedTasks 0)
       ++ rest) scored /\
    forall r r',
      In r (fst (calculateTopPriorityTasks exampleClock exampleDateTime
                   fourListedTasks 0)) ->
      In r' rest -> notBelow r r'.
Proof.
  apply (top_three_dominate exampleClock exampleDateTime fourListedTasks 0).
  exact fourListedTasks_own.
Defined.

Lemma ranking_stable_witness :
  exists scored ranking,
    Forall2 (scoredAs exampleClock exampleDateTime)
            (List.filter isEligible fourListedTasks) scored /\
    Permutation ranking scored /\ descending ranking /\
    fst (calculateTopPriorityTasks exampleClock exampleDateTime fourListedTasks 0) =
      take 3 ranking /\
    forall s, List.filter (hasScore s) ranking = List.filter (hasScore s) scored.
Proof.
  apply (ranking_stable exampleClock exampleDateTime fourListedTasks 0).
  exact fourListedTasks_own.
Defined.

Lemma slots_in_ranking_order_witness :
  descending (fst (calculateTopPriorityTasks exampleClock exampleDateTime
                     fourListedTasks 1)).
Proof.
  apply (proj1 (slots_in_ranking_order exampleClock exampleDateTime exampleIsoDate
                  fourListedTasks 0)).
  exact fourListedTasks_own.
Defined.

Lemma deadline_antitone_witness :
  (fst (getDeadlineScore exampleClock exampleDateTime (Some "2026-11-15") 0%nat) <=?
   fst (getDeadlineScore exampleClock exampleDateTime (Some "2026-11-05") 0%nat))%float
  = true.
Proof.
  eapply (deadline_antitone exampleClock exampleDateTime
            (Some "2026-11-05") (Some "2026-11-15") 0 0);
    first [reflexivity | vm_compute; reflexivity].
Defined.

Lemma empty_schedule_witness :
  scheduled (fst (generateDailySchedule exampleClock exampleDateTime exampleIsoDate
                    finishedTasks 0)) = [] /\
  totalEstimatedHours (fst (generateDailySchedule exampleClock exampleDateTime
                              exampleIsoDate finishedTasks 0)) = 0%float.
Proof.
  destruct (empty_schedule exampleClock exampleDateTime exampleIsoDate
              finishedTasks 0 eq_refl) as (_ & M & A & E & T & _).
  unfold scheduled. rewrite M, A, E. split; [reflexivity | exact T].
Defined.


Lemma within_cap_witness :
  Permutation (scheduled twelveSchedule)
    (map task (fst (calculateTopPriorityTasks exampleClock exampleDateTime
                      twelveTasks 1))).
Proof.
  apply (within_cap_nothing_dropped exampleClock exampleDateTime exampleIsoDate
           twelveTasks 0).
  intros P [<-|[<-|[<-|[]]]]; left; vm_compute; reflexivity.
Defined.

Lemma ineligible_ignored_witness :
  generateDailySchedule exampleClock exampleDateTime exampleIsoDate
    (finishedTasks ++ twelveTasks) 0 =
  generateDailySchedule exampleClock exampleDateTime exampleIsoDate twelveTasks 0.
Proof.
  apply (ineligible_tasks_ignored exampleClock exampleDateTime exampleIsoDate
           (finishedTasks ++ twelveTasks) twelveTasks 0).
  vm_compute. reflexivity.
Defined.

End FurtherExamples.
